(** * glu-code: the recording state machine of the terminal UI

    A shallow embedding of the speech-to-text session handling in the TUI
    (startTui and its nested handlers), the prompt store (savePrompt,
    updatePrompt) and the start-up check of the Node STT helper, followed by
    the properties of the transcription session that the design document
    states about them. *)

From Stdlib Require Import ZArith NArith List Bool Ascii String Lia.
From Stdlib Require Import DecimalString SpecFloat.
From stdpp Require Import base option list sorting gmap.
Import ListNotations.

Local Open Scope N_scope.

(** ** JavaScript strings

    A JavaScript string is a sequence of UTF-16 code units.  [js] embeds an
    ASCII literal. *)

Abbreviation jsstring := (list N).

Definition js (s : string) : jsstring :=
  map N_of_ascii (list_ascii_of_string s).
Arguments js : simpl never.

Definition SP : N := 32.
(** U+2026 HORIZONTAL ELLIPSIS and U+2013 EN DASH occur in the UI texts. *)
Definition ELLIPSIS : N := 8230.
Definition EN_DASH : N := 8211.
Definition QUOTE : N := 34.
Definition BACKSLASH : N := 92.

(** ECMAScript WhiteSpace and LineTerminator code points: what
    String.prototype.trim strips. *)
Definition isWhiteSpace (c : N) : bool :=
  (9 <=? c) && (c <=? 13)
  || (c =? 32) || (c =? 160) || (c =? 5760)
  || (8192 <=? c) && (c <=? 8202)
  || (c =? 8232) || (c =? 8233) || (c =? 8239) || (c =? 8287)
  || (c =? 12288) || (c =? 65279).

Fixpoint trimStart (s : jsstring) : jsstring :=
  match s with
  | [] => []
  | c :: r => if isWhiteSpace c then trimStart r else s
  end.

Definition trimEnd (s : jsstring) : jsstring := rev (trimStart (rev s)).

(** String.prototype.trim *)
Definition trim (s : jsstring) : jsstring := trimEnd (trimStart s).

(** Truthiness of a string: non-empty. *)
Definition nonEmpty (s : jsstring) : bool :=
  match s with [] => false | _ => true end.

(** Array.prototype.join on an array of strings. *)
Fixpoint join (sep : jsstring) (parts : list jsstring) : jsstring :=
  match parts with
  | [] => []
  | [p] => p
  | p :: rest => p ++ sep ++ join sep rest
  end.

(** [s.includes(t)] *)
Fixpoint startsWith (t s : jsstring) : bool :=
  match t, s with
  | [], _ => true
  | _ :: _, [] => false
  | a :: t', b :: s' => (a =? b) && startsWith t' s'
  end.

Fixpoint includes (s t : jsstring) : bool :=
  startsWith t s ||
  match s with
  | [] => false
  | _ :: s' => includes s' t
  end.

(** Number-to-string conversion of an integral number. *)
Definition numberToString (z : Z) : jsstring :=
  js (NilZero.string_of_int (Z.to_int z)).

(** ** JavaScript values, as JSON.parse produces them *)

#[warnings="-register-all"]
Inductive JsValue : Type :=
| JUndefined
| JNull
| JBool (b : bool)
| JNum (x : spec_float)
| JStr (s : jsstring)
| JArr (items : list JsValue)
| JObj (fields : list (jsstring * JsValue)).

Definition jsstring_eqb (a b : jsstring) : bool := bool_decide (a = b).

(** Own-property lookup on the object JSON.parse built: when a key is
    repeated in the text the last occurrence is the one kept. *)
Fixpoint lookupField (k : jsstring) (fields : list (jsstring * JsValue)) : JsValue :=
  match fields with
  | [] => JUndefined
  | (k', v) :: rest =>
      match lookupField k rest with
      | JUndefined => if jsstring_eqb k k' then v else JUndefined
      | found => found
      end
  end.

(** ToBoolean *)
Definition truthy (v : JsValue) : bool :=
  match v with
  | JUndefined | JNull => false
  | JBool b => b
  | JNum (S754_zero _) | JNum S754_nan => false
  | JNum _ => true
  | JStr s => nonEmpty s
  | JArr _ | JObj _ => true
  end.

Inductive Exn : Type :=
| TypeError
| Error (message : jsstring).

(** The result of evaluating an expression that may throw. *)
Inductive Res (A : Type) : Type :=
| Ret (a : A)
| Raise (e : Exn).
Arguments Ret {A} a.
Arguments Raise {A} e.

(** [v.k] for the keys the handlers read (type, text, error), none of which
    is a property of a primitive wrapper, of Array.prototype or of
    Object.prototype: reading from null or undefined throws, an object
    answers with its own property, everything else with undefined. *)
Definition getProp (v : JsValue) (k : jsstring) : Res JsValue :=
  match v with
  | JUndefined | JNull => Raise TypeError
  | JObj fields => Ret (lookupField k fields)
  | _ => Ret JUndefined
  end.

(** [v.trim()]: only a string has the method. *)
Definition callTrim (v : JsValue) : Res jsstring :=
  match v with
  | JStr s => Ret (trim s)
  | _ => Raise TypeError
  end.

(** [v?.trim()] *)
Definition optTrim (v : JsValue) : Res (option jsstring) :=
  match v with
  | JUndefined | JNull => Ret None
  | JStr s => Ret (Some (trim s))
  | _ => Raise TypeError
  end.

(** [v === s] for a string literal [s] *)
Definition strictEqStr (v : JsValue) (s : jsstring) : bool :=
  match v with
  | JStr t => jsstring_eqb t s
  | _ => false
  end.

(** ** The prompt store (store/promptsDb) *)

Record PromptRecord : Type := mkPromptRecord {
  pr_id : Z;
  pr_createdAt : jsstring;
  pr_text : jsstring
}.

Record RunRecord : Type := mkRunRecord {
  run_id : Z;
  run_promptId : Z;
  run_command : jsstring;
  run_windowName : option jsstring;
  run_createdAt : jsstring
}.

Record PromptRow : Type := mkPromptRow {
  created_at : jsstring;
  text : jsstring
}.

(** The prompts table, keyed by its INTEGER PRIMARY KEY, and the counter
    AUTOINCREMENT keeps for it (the largest rowid ever handed out). *)
Record Db : Type := mkDb {
  prompts : gmap Z PromptRow;
  lastInsertRowid : Z
}.

(** [now] is what [new Date().toISOString()] returns at the call. *)
Definition savePrompt (now : jsstring) (txt : jsstring) (d : Db) : PromptRecord * Db :=
  let createdAt := now in
  let rowid := (lastInsertRowid d + 1)%Z in
  (mkPromptRecord rowid createdAt txt,
   mkDb (<[rowid := mkPromptRow createdAt txt]> (prompts d)) rowid).

Definition updatePrompt (id : Z) (txt : jsstring) (d : Db) : Res PromptRecord * Db :=
  match prompts d !! id with
  | Some row =>
      if nonEmpty (created_at row) then
        (Ret (mkPromptRecord id (created_at row) txt),
         mkDb (<[id := mkPromptRow (created_at row) txt]> (prompts d)) (lastInsertRowid d))
      else (Raise (Error (js "Prompt with id " ++ numberToString id ++ js " not found")), d)
  | None => (Raise (Error (js "Prompt with id " ++ numberToString id ++ js " not found")), d)
  end.

(** ** The application state and the widgets the handlers write to *)

Record AppState : Type := mkAppState {
  currentPrompt : jsstring;
  activePromptId : option Z;
  createdAt : option jsstring;
  (** declared [string | undefined]; at run time whatever [evt.text] was *)
  lastPartial : JsValue;
  isRecording : bool;
  isEditing : bool;
  historyOpen : bool;
  modelPath : jsstring;
  lastRun : option RunRecord;
  (** the RecorderProcess object of the live session, as its index in
      [children] *)
  recorder : option nat
}.

Inductive Mode : Type := Recording | Editing | Idle.

(** What buildStatusLine interpolates into its template; [basename] and the
    locale's time format, which turn the last two into text, are library
    calls. *)
Record StatusLine : Type := mkStatusLine {
  sl_mode : Mode;
  sl_partialLeaf : bool;
  sl_idLabel : option Z;
  sl_modelPath : jsstring;
  sl_lastRun : option RunRecord
}.

Inductive StatusContent : Type :=
| StatusText (s : jsstring)
(** [`STT error: ${evt.error}`], the value not yet converted to a string *)
| StatusSttError (err : JsValue)
| StatusOf (l : StatusLine).

Record Widgets : Type := mkWidgets {
  statusText : StatusContent;
  plainText : jsstring;          (* promptEditor *)
  showCursor : bool;             (* promptEditor *)
  focused : bool;                (* promptEditor *)
  title : jsstring               (* promptBox *)
}.

(** A RecorderProcess object: the child process (the arguments it was
    spawned with, the signals sent to it so far) and [lastStderr], which the
    child's stderr handler writes and its exit handler reads. *)
Record RecorderProcess : Type := mkRecorderProcess {
  spawnArgs : list jsstring;
  signals : list jsstring;
  lastStderr : jsstring
}.

Record Env : Type := mkEnv {
  (** [resolve(DIRNAME, "../../scripts/stt-helper.cjs")] *)
  helperPath : jsstring;
  STT_DEVICE : option jsstring
}.

Record World : Type := mkWorld {
  state : AppState;
  ui : Widgets;
  children : list RecorderProcess;
  db : Db;
  env : Env
}.

(** Field assignments. *)
Definition set_currentPrompt (v : jsstring) (s : AppState) : AppState :=
  mkAppState v (activePromptId s) (createdAt s) (lastPartial s) (isRecording s)
    (isEditing s) (historyOpen s) (modelPath s) (lastRun s) (recorder s).
Definition set_activePromptId (v : option Z) (s : AppState) : AppState :=
  mkAppState (currentPrompt s) v (createdAt s) (lastPartial s) (isRecording s)
    (isEditing s) (historyOpen s) (modelPath s) (lastRun s) (recorder s).
Definition set_createdAt (v : option jsstring) (s : AppState) : AppState :=
  mkAppState (currentPrompt s) (activePromptId s) v (lastPartial s) (isRecording s)
    (isEditing s) (historyOpen s) (modelPath s) (lastRun s) (recorder s).
Definition set_lastPartial (v : JsValue) (s : AppState) : AppState :=
  mkAppState (currentPrompt s) (activePromptId s) (createdAt s) v (isRecording s)
    (isEditing s) (historyOpen s) (modelPath s) (lastRun s) (recorder s).
Definition set_isRecording (v : bool) (s : AppState) : AppState :=
  mkAppState (currentPrompt s) (activePromptId s) (createdAt s) (lastPartial s) v
    (isEditing s) (historyOpen s) (modelPath s) (lastRun s) (recorder s).
Definition set_isEditing (v : bool) (s : AppState) : AppState :=
  mkAppState (currentPrompt s) (activePromptId s) (createdAt s) (lastPartial s)
    (isRecording s) v (historyOpen s) (modelPath s) (lastRun s) (recorder s).
Definition set_lastRun (v : option RunRecord) (s : AppState) : AppState :=
  mkAppState (currentPrompt s) (activePromptId s) (createdAt s) (lastPartial s)
    (isRecording s) (isEditing s) (historyOpen s) (modelPath s) v (recorder s).
Definition set_recorder (v : option nat) (s : AppState) : AppState :=
  mkAppState (currentPrompt s) (activePromptId s) (createdAt s) (lastPartial s)
    (isRecording s) (isEditing s) (historyOpen s) (modelPath s) (lastRun s) v.

Definition set_statusText (v : StatusContent) (u : Widgets) : Widgets :=
  mkWidgets v (plainText u) (showCursor u) (focused u) (title u).
Definition set_plainText (v : jsstring) (u : Widgets) : Widgets :=
  mkWidgets (statusText u) v (showCursor u) (focused u) (title u).
Definition set_showCursor (v : bool) (u : Widgets) : Widgets :=
  mkWidgets (statusText u) (plainText u) v (focused u) (title u).
Definition set_focused (v : bool) (u : Widgets) : Widgets :=
  mkWidgets (statusText u) (plainText u) (showCursor u) v (title u).
Definition set_title (v : jsstring) (u : Widgets) : Widgets :=
  mkWidgets (statusText u) (plainText u) (showCursor u) (focused u) v.

Definition on_state (f : AppState -> AppState) (w : World) : World :=
  mkWorld (f (state w)) (ui w) (children w) (db w) (env w).
Definition on_ui (f : Widgets -> Widgets) (w : World) : World :=
  mkWorld (state w) (f (ui w)) (children w) (db w) (env w).
Definition on_children (f : list RecorderProcess -> list RecorderProcess) (w : World) : World :=
  mkWorld (state w) (ui w) (f (children w)) (db w) (env w).
Definition set_db (d : Db) (w : World) : World :=
  mkWorld (state w) (ui w) (children w) d (env w).

(** How a handler body ends: normally, or by throwing from the world it had
    reached. *)
Inductive Completion : Type :=
| Normal (w : World)
| Throw (e : Exn) (w : World).

Definition andThen (c : Completion) (k : World -> Completion) : Completion :=
  match c with
  | Normal w => k w
  | Throw e w => Throw e w
  end.

Definition worldOf (c : Completion) : World :=
  match c with Normal w | Throw _ w => w end.

(** ** The handlers of startTui *)

Definition modeOf (s : AppState) : Mode :=
  if isRecording s then Recording else if isEditing s then Editing else Idle.

Definition buildStatusLine (s : AppState) : StatusContent :=
  StatusOf
    (mkStatusLine (modeOf s) (truthy (lastPartial s))
       (match activePromptId s with
        | Some n => if (n =? 0)%Z then None else Some n
        | None => None
        end)
       (modelPath s) (lastRun s)).

Definition updatePromptTitle (w : World) : World :=
  let mode :=
    if isEditing (state w) then js "EDIT"
    else if isRecording (state w) then js "RECORD" else js "VIEW" in
  on_ui (set_title (js "Current prompt (" ++ mode ++ js ")")) w.

Definition renderPromptPreview (s : AppState) : Res jsstring :=
  let base := trim (currentPrompt s) in
  match optTrim (lastPartial s) with
  | Raise e => Raise e
  | Ret partial =>
      match partial with
      | Some p =>
          if isRecording s && nonEmpty p
          then Ret (join [SP] (List.filter nonEmpty [base; p]) ++ [SP; ELLIPSIS])
          else Ret base
      | None => Ret base
      end
  end.

(** [renderer.requestRender()] asks for a repaint and changes none of the
    modelled fields. *)
Definition refreshPromptView (w : World) : Completion :=
  match renderPromptPreview (state w) with
  | Raise e => Throw e w
  | Ret preview =>
      let w := if isEditing (state w) then w else on_ui (set_plainText preview) w in
      let w := on_ui (set_showCursor (isEditing (state w))) w in
      let w := on_ui (set_statusText (buildStatusLine (state w))) w in
      Normal (updatePromptTitle w)
  end.

Definition appendFinalText (txt : JsValue) (w : World) : Completion :=
  match callTrim txt with
  | Raise e => Throw e w
  | Ret trimmed =>
      if negb (nonEmpty trimmed) then Normal w
      else
        let existing := trim (currentPrompt (state w)) in
        let w := on_state (set_currentPrompt
                   (if nonEmpty existing then existing ++ [SP] ++ trimmed else trimmed)) w in
        let w := on_state (set_lastPartial JUndefined) w in
        refreshPromptView w
  end.

Definition stopRecorder (w : World) : World :=
  match recorder (state w) with
  | None => w
  | Some rec =>
      (* rec.proc.kill("SIGTERM") *)
      let w := on_children (alter (fun r =>
                 mkRecorderProcess (spawnArgs r) (signals r ++ [js "SIGTERM"]) (lastStderr r)) rec) w in
      on_state (set_recorder None) w
  end.

Definition buildRecorderArgs (e : Env) (modelPath : jsstring) : list jsstring :=
  let args := [helperPath e; js "--model"; modelPath; js "--sample-rate"; js "16000"] in
  match STT_DEVICE e with
  | Some d => if nonEmpty d then args ++ [js "--device"; d] else args
  | None => args
  end.

(** The stream and process handlers that startRecorder registers close over
    [recorderState]; they are [onLine], [onStderrData], [onError] and
    [onExit] below, which take the index of that object. *)
Definition startRecorder (w : World) : World :=
  let w := stopRecorder w in
  let args := buildRecorderArgs (env w) (modelPath (state w)) in
  let proc := length (children w) in
  let w := on_children (fun cs => cs ++ [mkRecorderProcess args [] []]) w in
  on_state (set_recorder (Some proc)) w.

Definition startRecording (w : World) : Completion :=
  let w := on_state (set_isRecording true) w in
  let w := on_state (set_isEditing false) w in
  let w := on_state (set_currentPrompt []) w in
  let w := on_state (set_lastPartial JUndefined) w in
  let w := on_state (set_activePromptId None) w in
  let w := on_state (set_lastRun None) w in
  let w := on_ui (set_focused false) w in
  let w := on_ui (set_showCursor false) w in
  andThen (refreshPromptView w) (fun w => Normal (startRecorder w)).

Definition stopRecording (w : World) : Completion :=
  if negb (isRecording (state w)) then Normal w
  else
    let w := on_state (set_isRecording false) w in
    let w := on_state (set_lastPartial JUndefined) w in
    let w := stopRecorder w in
    refreshPromptView w.

Definition toggleRecording (w : World) : Completion :=
  if isRecording (state w) then stopRecording w else startRecording w.

Definition handleSttEvent (evt : JsValue) (w : World) : Completion :=
  match getProp evt (js "type") with
  | Raise e => Throw e w
  | Ret ty =>
      if strictEqStr ty (js "partial") then
        match getProp evt (js "text") with
        | Raise e => Throw e w
        | Ret t => refreshPromptView (on_state (set_lastPartial t) w)
        end
      else if strictEqStr ty (js "final") then
        match getProp evt (js "text") with
        | Raise e => Throw e w
        | Ret t => appendFinalText t w
        end
      else if strictEqStr ty (js "error") then
        match getProp evt (js "error") with
        | Raise e => Throw e w
        | Ret err => Normal (on_ui (set_statusText (StatusSttError err)) w)
        end
      else Normal w
  end.

(** The readline "line" handler.  [parsed] is what [JSON.parse(line)]
    produced, [None] when it threw; the [try] swallows that and whatever
    handleSttEvent throws, keeping the assignments made before the throw. *)
Definition onLine (parsed : option JsValue) (w : World) : World :=
  match parsed with
  | None => w
  | Some evt => worldOf (handleSttEvent evt w)
  end.

(** [proc.stderr.on("data", ...)]; [data] is [data.toString()]. *)
Definition onStderrData (rec : nat) (data : jsstring) (w : World) : World :=
  let msg := trim data in
  let w := on_children (alter (fun r =>
             mkRecorderProcess (spawnArgs r) (signals r)
               (if nonEmpty (lastStderr r) then lastStderr r ++ [10] ++ msg else msg)) rec) w in
  let shown := match children w !! rec with Some r => lastStderr r | None => [] end in
  on_ui (set_statusText (StatusText (js "STT error: " ++ shown))) w.

(** [proc.on("error", ...)] *)
Definition onError (message : jsstring) (w : World) : World :=
  on_ui (set_statusText (StatusText (js "Failed to start STT helper: " ++ message))) w.

(** The [detail] of the exit handler:
    [lastStderr || (code !== null ? `code ${code}` : signal ? `signal ${signal}` : ...)] *)
Definition exitDetail (stderrText : jsstring) (code : option Z) (signal : option jsstring) : jsstring :=
  if nonEmpty stderrText then stderrText
  else match code with
       | Some c => js "code " ++ numberToString c
       | None =>
           match signal with
           | Some sg => if nonEmpty sg then js "signal " ++ sg else js "stt helper exited"
           | None => js "stt helper exited"
           end
       end.

(** [proc.on("exit", (code, signal) => ...)] *)
Definition onExit (rec : nat) (code : option Z) (signal : option jsstring) (w : World) : World :=
  if isRecording (state w) then
    let w := on_state (set_isRecording false) w in
    let stderrText := match children w !! rec with Some r => lastStderr r | None => [] end in
    let msg := js "Recording stopped (" ++ exitDetail stderrText code signal ++ js ")." in
    on_ui (set_statusText (StatusText msg)) w
  else w.

(** refreshHistory, which handleSave calls last, reads the store and fills
    the history list; it writes none of the modelled fields. *)
Definition handleSave (now : jsstring) (w : World) : Completion :=
  let content := trim (currentPrompt (state w)) in
  if negb (nonEmpty content) then
    Normal (on_ui (set_statusText
      (StatusText (js "Nothing to save " ++ [EN_DASH] ++ js " prompt is empty."))) w)
  else
    let saved :=
      match activePromptId (state w) with
      | Some n =>
          if (n =? 0)%Z then let '(r, d) := savePrompt now content (db w) in (Ret r, d)
          else updatePrompt n content (db w)
      | None => let '(r, d) := savePrompt now content (db w) in (Ret r, d)
      end in
    match saved with
    | (Raise e, d) => Throw e (set_db d w)
    | (Ret record, d) =>
        let w := set_db d w in
        let w := on_state (set_activePromptId (Some (pr_id record))) w in
        let w := on_state (set_createdAt (Some (pr_createdAt record))) w in
        let w := on_ui (set_statusText (StatusText
                   (js "Saved prompt #" ++ numberToString (pr_id record) ++ js " ("
                    ++ pr_createdAt record ++ js ")."))) w in
        Normal (updatePromptTitle w)
    end.

(** ** What the runtime delivers, one callback at a time *)

(** [KeyR] and [KeyS] are the key presses as they reach the switch of the
    keypress handler (not editing, the key not taken by the history list). *)
Inductive Event : Type :=
| KeyR                                                  (* toggleRecording *)
| KeyS (now : jsstring)                                 (* handleSave *)
| StdoutLine (rec : nat) (parsed : option JsValue)
| StderrData (rec : nat) (data : jsstring)
| ProcError (rec : nat) (message : jsstring)
| ProcExit (rec : nat) (code : option Z) (signal : option jsstring).

Definition deliver (e : Event) (w : World) : Completion :=
  match e with
  | KeyR => toggleRecording w
  | KeyS now => handleSave now w
  | StdoutLine _ parsed => Normal (onLine parsed w)
  | StderrData rec data => Normal (onStderrData rec data w)
  | ProcError _ message => Normal (onError message w)
  | ProcExit rec code signal => Normal (onExit rec code signal w)
  end.

(** An exception that leaves a key handler is fatal (attachFatalHandlers):
    nothing is delivered after it. *)
Fixpoint run (es : list Event) (w : World) : Completion :=
  match es with
  | [] => Normal w
  | e :: rest => andThen (deliver e w) (run rest)
  end.

(** The state startTui builds before the first callback, after its closing
    refreshPromptView(). *)
Definition initialState (model : jsstring) : AppState :=
  mkAppState [] None None JUndefined false false true model None None.

Definition initialWorld (model : jsstring) (e : Env) (d : Db) : World :=
  worldOf (refreshPromptView
    (updatePromptTitle
      (mkWorld (initialState model) (mkWidgets (StatusText []) [] false false (js "Current prompt"))
         [] d e))).

(** The protocol's events as the objects JSON.parse yields for them. *)
Definition partialEvent (t : jsstring) : JsValue :=
  JObj [(js "type", JStr (js "partial")); (js "text", JStr t)].
Definition finalEvent (t : jsstring) : JsValue :=
  JObj [(js "type", JStr (js "final")); (js "text", JStr t)].
Definition errorEvent (m : jsstring) : JsValue :=
  JObj [(js "type", JStr (js "error")); (js "error", JStr m)].

(** ** The STT helper's start-up (scripts/stt-helper.cjs) *)

Record HelperArgs : Type := mkHelperArgs {
  model : option jsstring;
  sampleRate : option jsstring;
  device : option jsstring
}.

(** [argv[++i]] is undefined past the end of the array. *)
Fixpoint parseArgs (argv : list jsstring) (out : HelperArgs) : HelperArgs :=
  match argv with
  | [] => out
  | arg :: rest =>
      if negb (jsstring_eqb arg (js "--model") || jsstring_eqb arg (js "--sample-rate")
               || jsstring_eqb arg (js "--device"))
      then parseArgs rest out
      else
        let out' v :=
          if jsstring_eqb arg (js "--model") then mkHelperArgs v (sampleRate out) (device out)
          else if jsstring_eqb arg (js "--sample-rate") then mkHelperArgs (model out) v (device out)
          else mkHelperArgs (model out) (sampleRate out) v in
        match rest with
        | [] => out' None
        | v :: rest' => parseArgs rest' (out' (Some v))
        end
  end.

Definition hexDigit (n : N) : N := if n <? 10 then 48 + n else 87 + n.

Definition unicodeEscape (c : N) : jsstring :=
  [BACKSLASH; 117; hexDigit (c / 4096); hexDigit ((c / 256) mod 16);
   hexDigit ((c / 16) mod 16); hexDigit (c mod 16)].

Definition isLeadSurrogate (c : N) : bool := (55296 <=? c) && (c <=? 56319).
Definition isTrailSurrogate (c : N) : bool := (56320 <=? c) && (c <=? 57343).

(** The characters of JSON.stringify's quoting of a string. *)
Fixpoint quoteJSONChars (s : jsstring) : jsstring :=
  match s with
  | [] => []
  | c :: r =>
      if c =? 8 then [BACKSLASH; 98] ++ quoteJSONChars r
      else if c =? 9 then [BACKSLASH; 116] ++ quoteJSONChars r
      else if c =? 10 then [BACKSLASH; 110] ++ quoteJSONChars r
      else if c =? 12 then [BACKSLASH; 102] ++ quoteJSONChars r
      else if c =? 13 then [BACKSLASH; 114] ++ quoteJSONChars r
      else if c =? QUOTE then [BACKSLASH; QUOTE] ++ quoteJSONChars r
      else if c =? BACKSLASH then [BACKSLASH; BACKSLASH] ++ quoteJSONChars r
      else if c <? 32 then unicodeEscape c ++ quoteJSONChars r
      else if isLeadSurrogate c then
        match r with
        | d :: r' =>
            if isTrailSurrogate d then c :: d :: quoteJSONChars r'
            else unicodeEscape c ++ quoteJSONChars r
        | [] => unicodeEscape c
        end
      else if isTrailSurrogate c then unicodeEscape c ++ quoteJSONChars r
      else c :: quoteJSONChars r
  end.

Definition quoteJSONString (s : jsstring) : jsstring :=
  [QUOTE] ++ quoteJSONChars s ++ [QUOTE].

(** [JSON.stringify({ type: "error", error: msg })] *)
Definition stringifyError (msg : jsstring) : jsstring :=
  js "{" ++ quoteJSONString (js "type") ++ js ":" ++ quoteJSONString (js "error") ++ js ","
  ++ quoteJSONString (js "error") ++ js ":" ++ quoteJSONString msg ++ js "}".

(** What the helper process sees of its surroundings. *)
Record HelperOs : Type := mkHelperOs {
  existsSync : jsstring -> bool;
  VOSK_MODEL_PATH : option jsstring;
  (** [path.join(process.env.HOME || "", ".local", "share", "vosk", "model")] *)
  defaultModel : jsstring
}.

Inductive HelperStart : Type :=
(** [console.error(line); process.exit(code)] before anything is recorded *)
| ExitEarly (stderrOut : jsstring) (code : Z)
(** loadVosk() and start() are reached *)
| Proceeds (modelPath : jsstring).

Definition orElse (a : option jsstring) (b : jsstring) : jsstring :=
  match a with
  | Some s => if nonEmpty s then s else b
  | None => b
  end.

(** The top level of the helper down to the model-path check; [argv] is
    [process.argv.slice(2)]. *)
Definition helperMain (os : HelperOs) (argv : list jsstring) : HelperStart :=
  let args := parseArgs argv (mkHelperArgs None None None) in
  let modelPath := orElse (model args) (orElse (VOSK_MODEL_PATH os) (defaultModel os)) in
  if negb (existsSync os modelPath) then
    ExitEarly (stringifyError (js "Model path not found: " ++ modelPath) ++ [10]) 1
  else Proceeds modelPath.

(** safeParsePartial and safeParseText, from the point where [payload] is
    the recognizer's result as an object ([null] when it was a string that
    did not parse).  [text && text.trim().length > 0 ? text.trim() : null] *)
Definition hasKey (k : jsstring) (fields : list (jsstring * JsValue)) : bool :=
  existsb (fun kv => jsstring_eqb (fst kv) k) fields.


Definition safeParseText (payload : JsValue) : Res (option jsstring) :=
  match payload with
  | JObj fields =>
      if hasKey (js "text") fields then
        let text := lookupField (js "text") fields in
        if truthy text then
          match callTrim text with
          | Raise e => Raise e
          | Ret t => Ret (if nonEmpty t then Some t else None)
          end
        else Ret None
      else Ret None
  | _ => Ret None
  end.


(** * Notions the statements use *)

(** ** Strings without whitespace at the ends *)

Definition headWs (s : jsstring) : bool :=
  match s with c :: _ => isWhiteSpace c | [] => false end.

Definition lastWs (s : jsstring) : bool := headWs (rev s).

(** A string with something in it and no whitespace at either end. *)
Definition tight (s : jsstring) : bool :=
  nonEmpty s && negb (headWs s) && negb (lastWs s).

(** The pieces a sequence of final texts contributes to the draft. *)
Definition pieces (fs : list jsstring) : list jsstring :=
  List.filter nonEmpty (map trim fs).

(** What the prompt editor shows for a draft and a live partial while
    recording. *)
Definition previewOf (draft p : jsstring) : jsstring :=
  if nonEmpty (trim p)
  then join [SP] (List.filter nonEmpty [trim draft; trim p]) ++ [SP; ELLIPSIS]
  else trim draft.

Definition stringOrAbsent (v : JsValue) : bool :=
  match v with JUndefined | JNull | JStr _ => true | _ => false end.

(** ** The EventChannel contract *)

Inductive TranscriptEvent : Type :=
| Partial (text : jsstring)
| Final (text : jsstring)
| ErrorEvent (message : jsstring).

(** The EventChannel contract in the design document's words: a line
    yields an event when it parses to an object whose [type] is partial or
    final with a [text] that is not empty once trimmed, or whose [type] is
    error with a non-empty [error] message; every other line yields none.
    The handlers have no such function; it only says which lines count as
    malformed. *)
Definition eventChannel (parsed : option JsValue) : option TranscriptEvent :=
  match parsed with
  | Some (JObj fields) =>
      match lookupField (js "type") fields with
      | JStr ty =>
          if jsstring_eqb ty (js "partial") then
            match lookupField (js "text") fields with
            | JStr t => if nonEmpty (trim t) then Some (Partial t) else None
            | _ => None
            end
          else if jsstring_eqb ty (js "final") then
            match lookupField (js "text") fields with
            | JStr t => if nonEmpty (trim t) then Some (Final t) else None
            | _ => None
            end
          else if jsstring_eqb ty (js "error") then
            match lookupField (js "error") fields with
            | JStr m => if nonEmpty m then Some (ErrorEvent m) else None
            | _ => None
            end
          else None
      | _ => None
      end
  | _ => None
  end.

(** The [text] of a line that parsed to an object of type partial. *)
Definition partialText (parsed : option JsValue) : option JsValue :=
  match parsed with
  | Some (JObj fields) =>
      if strictEqStr (lookupField (js "type") fields) (js "partial")
      then Some (lookupField (js "text") fields)
      else None
  | _ => None
  end.

(** ** Event sequences and concrete sessions *)

Definition finalLines (rec : nat) (fs : list jsstring) : list Event :=
  map (fun t => StdoutLine rec (Some (finalEvent t))) fs.

Definition partialLines (rec : nat) (ps : list jsstring) : list Event :=
  map (fun t => StdoutLine rec (Some (partialEvent t))) ps.

Definition demoEnv : Env :=
  mkEnv (js "/opt/glu-code/scripts/stt-helper.cjs") None.

Definition emptyDb : Db := mkDb ∅ 0.

Definition idleWorld : World := initialWorld (js "/models/vosk") demoEnv emptyDb.

(** R pressed once: the first session is recording. *)
Definition recordingWorld : World := worldOf (run [KeyR] idleWorld).

(** One partial is live in the first session. *)
Definition previewingWorld : World :=
  worldOf (run [KeyR; StdoutLine 0 (Some (partialEvent (js "hello")))] idleWorld).

(** Recording, with draft "draft one". *)
Definition draftOneWorld : World :=
  worldOf (run [KeyR; StdoutLine 0 (Some (finalEvent (js "draft one")))] idleWorld).

(** The same, after the helper has written "boom" to stderr. *)
Definition crashingWorld : World :=
  worldOf (run [StderrData 0 (js "boom" ++ [10])] draftOneWorld).

(** A session that took one final text and was then stopped with R; the
    helper, on SIGTERM, still flushes a final result before it exits. *)
Definition stoppedWorld : World :=
  worldOf (run [KeyR; StdoutLine 0 (Some (finalEvent (js "hello"))); KeyR] idleWorld).

(** R pressed three times: start, stop, start again.  The second
    subprocess is running; the exit of the first has not been reported
    yet. *)
Definition restartedWorld : World := worldOf (run [KeyR; KeyR; KeyR] idleWorld).

(** A saved prompt whose text was then edited down to blanks. *)
Definition blankedWorld : World :=
  mkWorld
    (mkAppState (js "   ") (Some 1%Z) (Some (js "2025-01-01T00:00:00.000Z")) JUndefined
       false false true (js "/models/vosk") None None)
    (mkWidgets (StatusText []) (js "   ") false false (js "Current prompt (VIEW)"))
    []
    (mkDb {[ 1%Z := mkPromptRow (js "2025-01-01T00:00:00.000Z") (js "draft one") ]} 1)
    demoEnv.

Definition noModelOs : HelperOs :=
  mkHelperOs (fun _ => false) None (js "/home/user/.local/share/vosk/model").

(** * The rest of the application *)

(** ** The prompt store, continued (store/promptsDb) *)

(** [ORDER BY id DESC] over a table keyed by its id. *)
Definition idDesc {A : Type} (a b : Z * A) : Prop := (b.1 <= a.1)%Z.

#[global] Instance idDesc_dec {A : Type} (a b : Z * A) : Decision (idDesc a b) :=
  decide (b.1 <= a.1)%Z.

Definition rowsByIdDesc {A : Type} (m : gmap Z A) : list (Z * A) :=
  merge_sort idDesc (map_to_list m).

(** [LIMIT ?]: a negative limit is no limit. *)
Definition sqlLimit {A : Type} (limit : Z) (l : list A) : list A :=
  if (limit <? 0)%Z then l else take (Z.to_nat limit) l.

Definition toPromptRecord (r : Z * PromptRow) : PromptRecord :=
  mkPromptRecord r.1 (created_at r.2) (text r.2).

Definition getPrompt (id : Z) (d : Db) : option PromptRecord :=
  match prompts d !! id with
  | Some row => Some (toPromptRecord (id, row))
  | None => None
  end.

Definition listPrompts (limit : Z) (d : Db) : list PromptRecord :=
  toPromptRecord <$> sqlLimit limit (rowsByIdDesc (prompts d)).

Definition getLastPrompt (d : Db) : option PromptRecord :=
  head (toPromptRecord <$> sqlLimit 1 (rowsByIdDesc (prompts d))).

Record RunRow : Type := mkRunRow {
  prompt_id : Z;
  command : jsstring;
  window_name : option jsstring;
  run_created_at : jsstring
}.

(** The runs table and its AUTOINCREMENT counter. *)
Record RunsTable : Type := mkRunsTable {
  runs : gmap Z RunRow;
  lastRunRowid : Z
}.

Definition mapRunRow (r : Z * RunRow) : RunRecord :=
  mkRunRecord r.1 (prompt_id r.2) (command r.2) (window_name r.2) (run_created_at r.2).

(** [FOREIGN KEY(prompt_id) REFERENCES prompts(id)] is enforced or not
    according to the driver's setting, [enforceForeignKeys]; when it is, the
    INSERT of a run for a prompt id that is not in the prompts table
    throws. *)
Definition logRun (enforceForeignKeys : bool) (now : jsstring) (promptId : Z)
    (cmd : jsstring) (windowName : option jsstring) (d : Db) (t : RunsTable)
    : Res RunRecord * RunsTable :=
  let createdAt := now in
  if enforceForeignKeys && negb (bool_decide (is_Some (prompts d !! promptId))) then
    (Raise (Error (js "FOREIGN KEY constraint failed")), t)
  else
    let rowid := (lastRunRowid t + 1)%Z in
    (Ret (mkRunRecord rowid promptId cmd windowName createdAt),
     mkRunsTable (<[rowid := mkRunRow promptId cmd windowName createdAt]> (runs t)) rowid).

Definition runsOfPrompt (promptId : Z) (t : RunsTable) : list (Z * RunRow) :=
  List.filter (fun r => (prompt_id r.2 =? promptId)%Z) (rowsByIdDesc (runs t)).

Definition getLastRunForPrompt (promptId : Z) (t : RunsTable) : option RunRecord :=
  head (mapRunRow <$> sqlLimit 1 (runsOfPrompt promptId t)).

Definition listRuns (limit : Z) (t : RunsTable) : list RunRecord :=
  mapRunRow <$> sqlLimit limit (rowsByIdDesc (runs t)).


(** ** Editing and the history list (tui/app, continued) *)

Definition set_historyOpen (v : bool) (s : AppState) : AppState :=
  mkAppState (currentPrompt s) (activePromptId s) (createdAt s) (lastPartial s)
    (isRecording s) (isEditing s) v (modelPath s) (lastRun s) (recorder s).

(** [promptEditor.onContentChange]: the editor's content has become [t]
    and the callback runs. *)
Definition onContentChange (t : jsstring) (w : World) : World :=
  let w := on_ui (set_plainText t) w in
  if negb (isEditing (state w)) then w
  else
    let w := on_state (set_currentPrompt (plainText (ui w))) w in
    let w := on_state (set_lastPartial JUndefined) w in
    on_ui (set_statusText (buildStatusLine (state w))) w.

(** [notifies] says whether the editor widget reports a [setText] through
    onContentChange, as it does the user's typing; in refreshPromptView and
    in the history handler the callback would return at once either way
    (isEditing is false there), here it would not. *)
Definition enterEdit (notifies : bool) (w : World) : Completion :=
  andThen (stopRecording w) (fun w =>
    let w := on_state (set_isEditing true) w in
    let w := if notifies then onContentChange (currentPrompt (state w)) w
             else on_ui (set_plainText (currentPrompt (state w))) w in
    let w := on_ui (set_focused true) w in
    let w := on_ui (set_showCursor true) w in
    let w := updatePromptTitle w in
    Normal (on_ui (set_statusText (buildStatusLine (state w))) w)).

Definition exitEdit (w : World) : Completion :=
  if negb (isEditing (state w)) then Normal w
  else
    let w := on_state (set_isEditing false) w in
    let w := on_ui (set_focused false) w in
    let w := on_ui (set_showCursor false) w in
    let w := on_state (set_currentPrompt (plainText (ui w))) w in
    let w := updatePromptTitle w in
    refreshPromptView w.

(** An entry of the history list: [value: { ...prompt, lastRun }] and the
    part of its description that is computed from the prompt,
    [prompt.text.slice(0, 60).replace(/\s+/g, " ")]; the rest of the
    description is the last run's date in the locale's format. *)
Record HistoryOption : Type := mkHistoryOption {
  opt_prompt : PromptRecord;
  opt_lastRun : option RunRecord;
  opt_summary : jsstring
}.

(** [s.replace(/\s+/g, " ")]: [inRun] is true while inside a run of
    whitespace that has already produced its space. *)
Fixpoint replaceWsRunsFrom (inRun : bool) (s : jsstring) : jsstring :=
  match s with
  | [] => []
  | c :: r =>
      if isWhiteSpace c then
        if inRun then replaceWsRunsFrom true r else SP :: replaceWsRunsFrom true r
      else c :: replaceWsRunsFrom false r
  end.

Definition replaceWsRuns (s : jsstring) : jsstring := replaceWsRunsFrom false s.

(** The ITEM_SELECTED handler of the history list, for the option chosen.
    [prompt.lastRun ?? getLastRunForPrompt(prompt.id)] *)
Definition onItemSelected (opt : HistoryOption) (t : RunsTable) (w : World) : Completion :=
  let prompt := opt_prompt opt in
  let w := on_state (set_currentPrompt (pr_text prompt)) w in
  let w := on_state (set_activePromptId (Some (pr_id prompt))) w in
  let w := on_state (set_createdAt (Some (pr_createdAt prompt))) w in
  let w := on_state (set_lastRun
             (match opt_lastRun opt with
              | Some r => Some r
              | None => getLastRunForPrompt (pr_id prompt) t
              end)) w in
  let w := on_state (set_isEditing false) w in
  let w := on_ui (set_plainText (pr_text prompt)) w in
  let w := on_ui (set_focused false) w in
  let w := on_ui (set_showCursor false) w in
  refreshPromptView w.

(** ** Launching Codex (utils/codex) *)

Record CodexLaunchResult : Type := mkCodexLaunchResult {
  windowName : jsstring;
  launchCommand : jsstring
}.

Definition digit36 (d : N) : N := if d <? 10 then 48 + d else 87 + d.

Fixpoint toBase36 (fuel : nat) (n : N) (acc : jsstring) : jsstring :=
  match fuel with
  | O => acc
  | S fuel' =>
      let acc' := digit36 (n mod 36) :: acc in
      if n / 36 =? 0 then acc' else toBase36 fuel' (n / 36) acc'
  end.

(** [n.toString(36)] for a non-negative integer *)
Definition numberToString36 (n : N) : jsstring :=
  toBase36 (S (N.to_nat (N.log2 n))) n [].

(** [`codex-${Date.now().toString(36)}`]; [nowMs] is [Date.now()]. *)
Definition defaultWindowName (nowMs : N) : jsstring :=
  js "codex-" ++ numberToString36 nowMs.

Definition buildCodexCommand (prompt : jsstring) (extraArgs : list jsstring) : jsstring :=
  let encodedPrompt := quoteJSONString prompt in
  let extra := match extraArgs with [] => [] | _ => [SP] ++ join [SP] extraArgs end in
  js "codex " ++ encodedPrompt ++ extra.

(** What the operating system answers while one key press is handled. *)
Record SpawnResult : Type := mkSpawnResult {
  sr_error : option jsstring;      (* res.error?.message *)
  sr_status : option Z;            (* res.status *)
  sr_stderr : option jsstring      (* res.stderr?.toString() *)
}.

Record Os : Type := mkOs {
  saveTime : jsstring;             (* new Date().toISOString() in savePrompt *)
  runTime : jsstring;              (* new Date().toISOString() in logRun *)
  nowMs : N;                       (* Date.now() *)
  cwd : jsstring;                  (* process.cwd() *)
  resolvePath : jsstring -> jsstring;  (* path.resolve *)
  tmuxFound : bool;                (* spawnSync("tmux", ["-V"]) without error *)
  foreignKeys : bool;              (* the SQLite driver enforces foreign keys *)
  WAYLAND_DISPLAY : option jsstring;
  XDO_WINDOW_ID : option jsstring;
  (** [spawnSync(cmd, args, { input })] ran without error and with status 0 *)
  copyToolWorks : jsstring -> bool;
  xdotoolFound : bool;             (* hasXdotool() *)
  xdotoolResult : SpawnResult      (* of the typing command *)
}.

(** launchCodex: its result, and the arguments of the [tmux] process it
    spawned when it got that far. *)
Definition launchCodex (os : Os) (prompt0 : jsstring) (workdir0 : option jsstring)
    (extraArgs0 : option (list jsstring)) (windowName0 : option jsstring)
    : Res CodexLaunchResult * option (list jsstring) :=
  let prompt := trim prompt0 in
  if negb (nonEmpty prompt) then (Raise (Error (js "Prompt is empty")), None)
  else if negb (tmuxFound os) then
    (Raise (Error (js "tmux executable not found in PATH. Please install tmux.")), None)
  else
    let workdir := match workdir0 with
                   | Some d => if nonEmpty d then resolvePath os d else cwd os
                   | None => cwd os
                   end in
    let extraArgs := match extraArgs0 with Some l => l | None => [] end in
    let codexCommand := buildCodexCommand prompt extraArgs in
    let windowName := match windowName0 with
                      | Some n => n
                      | None => defaultWindowName (nowMs os)
                      end in
    let tmuxArgs := [js "new-window"; js "-n"; windowName; js "-c"; workdir; codexCommand] in
    (Ret (mkCodexLaunchResult windowName codexCommand), Some tmuxArgs).

(** cli/codexLast: what [main] does with the store: the exit code, if it
    exits, and the tmux arguments, if it launched. *)
Definition codexLastMain (os : Os) (d : Db) : option Z * option (list jsstring) :=
  match getLastPrompt d with
  | None => (Some 1%Z, None)
  | Some prompt =>
      match launchCodex os (pr_text prompt) (Some (cwd os)) None None with
      | (Raise _, spawned) => (Some 1%Z, spawned)
      | (Ret _, spawned) => (None, spawned)
      end
  end.

(** ** The application with its store of runs and its other widgets *)

Record App : Type := mkApp {
  world : World;
  runsDb : RunsTable;
  historyOptions : list HistoryOption;     (* historyList.options *)
  selectedIndexSet : option nat;           (* the last setSelectedIndex(index) *)
  historyFocused : bool;
  tmuxWindows : list (list jsstring);      (* arguments of each tmux spawned *)
  copied : option jsstring;                (* text last handed to a clipboard tool that worked *)
  typed : list (list jsstring)             (* arguments of each xdotool typing run *)
}.

Definition set_world (w : World) (a : App) : App :=
  mkApp w (runsDb a) (historyOptions a) (selectedIndexSet a) (historyFocused a)
    (tmuxWindows a) (copied a) (typed a).
Definition on_world (f : World -> World) (a : App) : App := set_world (f (world a)) a.
Definition set_runsDb (t : RunsTable) (a : App) : App :=
  mkApp (world a) t (historyOptions a) (selectedIndexSet a) (historyFocused a)
    (tmuxWindows a) (copied a) (typed a).
Definition set_historyOptions (o : list HistoryOption) (a : App) : App :=
  mkApp (world a) (runsDb a) o (selectedIndexSet a) (historyFocused a)
    (tmuxWindows a) (copied a) (typed a).
Definition set_selectedIndexSet (i : option nat) (a : App) : App :=
  mkApp (world a) (runsDb a) (historyOptions a) i (historyFocused a)
    (tmuxWindows a) (copied a) (typed a).
Definition set_historyFocused (b : bool) (a : App) : App :=
  mkApp (world a) (runsDb a) (historyOptions a) (selectedIndexSet a) b
    (tmuxWindows a) (copied a) (typed a).
Definition set_tmuxWindows (l : list (list jsstring)) (a : App) : App :=
  mkApp (world a) (runsDb a) (historyOptions a) (selectedIndexSet a) (historyFocused a)
    l (copied a) (typed a).
Definition set_copied (c : option jsstring) (a : App) : App :=
  mkApp (world a) (runsDb a) (historyOptions a) (selectedIndexSet a) (historyFocused a)
    (tmuxWindows a) c (typed a).
Definition set_typed (l : list (list jsstring)) (a : App) : App :=
  mkApp (world a) (runsDb a) (historyOptions a) (selectedIndexSet a) (historyFocused a)
    (tmuxWindows a) (copied a) l.

Definition showStatus (s : jsstring) (a : App) : App :=
  on_world (on_ui (set_statusText (StatusText s))) a.

Inductive AppCompletion : Type :=
| AppNormal (a : App)
| AppThrow (e : Exn) (a : App).

Definition appOf (c : AppCompletion) : App :=
  match c with AppNormal a | AppThrow _ a => a end.

Definition appThen (c : AppCompletion) (k : App -> AppCompletion) : AppCompletion :=
  match c with
  | AppNormal a => k a
  | AppThrow e a => AppThrow e a
  end.

Definition liftWorld (f : World -> Completion) (a : App) : AppCompletion :=
  match f (world a) with
  | Normal w => AppNormal (set_world w a)
  | Throw e w => AppThrow e (set_world w a)
  end.

Definition truthyId (id : option Z) : bool :=
  match id with
  | Some n => negb (n =? 0)%Z
  | None => false
  end.

(** [prompts.findIndex((p) => p.id === selectedId)] *)
Fixpoint findIndex (id : Z) (ps : list PromptRecord) : option nat :=
  match ps with
  | [] => None
  | p :: rest => if (pr_id p =? id)%Z then Some O else S <$> findIndex id rest
  end.

(** refreshHistory; refreshTmuxStatus, which it ends with, fills a widget
    that is not modelled. *)
Definition refreshHistory (selectedId : option Z) (a : App) : App :=
  let prompts := listPrompts 100 (db (world a)) in
  let a := set_historyOptions
             ((fun prompt =>
                 mkHistoryOption prompt (getLastRunForPrompt (pr_id prompt) (runsDb a))
                   (replaceWsRuns (take 60 (pr_text prompt)))) <$> prompts) a in
  if truthyId selectedId then
    match selectedId with
    | Some id =>
        match findIndex id prompts with
        | Some index => set_selectedIndexSet (Some index) a
        | None => a
        end
    | None => a
    end
  else a.

(** handleSave with the refreshHistory(record.id) it ends with. *)
Definition saveAndRefresh (os : Os) (a : App) : AppCompletion :=
  match handleSave (saveTime os) (world a) with
  | Throw e w => AppThrow e (set_world w a)
  | Normal w =>
      if nonEmpty (trim (currentPrompt (state (world a))))
      then AppNormal (refreshHistory (activePromptId (state w)) (set_world w a))
      else AppNormal (set_world w a)
  end.

Definition toggleHistory (a : App) : App :=
  let a := on_world (on_state (set_historyOpen (negb (historyOpen (state (world a)))))) a in
  if historyOpen (state (world a)) then
    set_historyFocused true (refreshHistory (activePromptId (state (world a))) a)
  else set_historyFocused false a.

Definition buildWindowName (nowMs : N) (promptId : option Z) : jsstring :=
  match promptId with
  | Some n => if (n =? 0)%Z then defaultWindowName nowMs else js "codex-" ++ numberToString n
  | None => defaultWindowName nowMs
  end.

(** [(err as Error).message]; the try of handleCodexLaunch only sees the
    Errors thrown by launchCodex and logRun. *)
Definition messageOf (e : Exn) : jsstring :=
  match e with
  | Error m => m
  | TypeError => []
  end.

Definition handleCodexLaunch (os : Os) (a : App) : AppCompletion :=
  let prompt := trim (currentPrompt (state (world a))) in
  if negb (nonEmpty prompt) then
    AppNormal (showStatus (js "Cannot launch Codex " ++ [EN_DASH] ++ js " prompt is empty.") a)
  else
    appThen
      (if truthyId (activePromptId (state (world a))) then AppNormal a else saveAndRefresh os a)
      (fun a =>
         let failed e a := showStatus (js "Failed to launch Codex: " ++ messageOf e) a in
         let requested := buildWindowName (nowMs os) (activePromptId (state (world a))) in
         match launchCodex os prompt (Some (cwd os)) None (Some requested) with
         | (Raise e, _) => AppNormal (failed e a)
         | (Ret res, spawned) =>
             let a := match spawned with
                      | Some args => set_tmuxWindows (tmuxWindows a ++ [args]) a
                      | None => a
                      end in
             let logged :=
               match activePromptId (state (world a)) with
               | Some n =>
                   if (n =? 0)%Z then (Ret None, runsDb a)
                   else
                     match logRun (foreignKeys os) (runTime os) n (launchCommand res)
                             (Some (windowName res)) (db (world a)) (runsDb a) with
                     | (Raise e, t) => (Raise e, t)
                     | (Ret run, t) => (Ret (Some run), t)
                     end
               | None => (Ret None, runsDb a)
               end in
             match logged with
             | (Raise e, t) => AppNormal (failed e (set_runsDb t a))
             | (Ret run, t) =>
                 let a := set_runsDb t a in
                 let a := match run with
                          | Some r => on_world (on_state (set_lastRun (Some r))) a
                          | None => a
                          end in
                 AppNormal (showStatus
                   (js "Codex launched in tmux window " ++ [QUOTE] ++ windowName res
                    ++ [QUOTE] ++ js ".") a)
             end
         end).

(** [copyToClipboard]: the first candidate that works takes the text;
    the result is the failure message, if none did. *)
Definition clipboardCandidates (os : Os) : list jsstring :=
  match WAYLAND_DISPLAY os with
  | Some _ => [js "wl-copy"; js "xclip"]
  | None => [js "xclip"; js "wl-copy"]
  end.

Fixpoint tryCandidates (os : Os) (candidates : list jsstring) : option jsstring :=
  match candidates with
  | [] => None
  | cmd :: rest => if copyToolWorks os cmd then Some cmd else tryCandidates os rest
  end.

Definition copyToClipboard (os : Os) (txt : jsstring) : option jsstring * option jsstring :=
  match tryCandidates os (clipboardCandidates os) with
  | Some _ => (None, Some txt)
  | None => (Some (js "Clipboard copy failed (wl-copy/xclip not found)."), None)
  end.

Definition handleCopy (os : Os) (a : App) : App :=
  let prompt := trim (currentPrompt (state (world a))) in
  if negb (nonEmpty prompt) then
    showStatus (js "Nothing to copy " ++ [EN_DASH] ++ js " prompt is empty.") a
  else
    match copyToClipboard os prompt with
    | (Some failure, _) => showStatus failure a
    | (None, taken) =>
        showStatus (js "Prompt copied to clipboard.")
          (match taken with Some t => set_copied (Some t) a | None => a end)
    end.

Definition xdotoolTypeArgs (target msg : jsstring) : list jsstring :=
  [js "windowactivate"; js "--sync"; target; js "key"; js "ctrl+a"; js "ctrl+k";
   js "type"; js "--delay"; js "0"; msg; js "key"; js "Return"].

(** [res.stderr?.toString().trim() || res.error?.message || res.status] *)
Definition injectFailureDetail (res : SpawnResult) : jsstring :=
  orElse (trim <$> sr_stderr res)
    (orElse (sr_error res)
       (match sr_status res with
        | Some n => numberToString n
        | None => js "null"
        end)).

Definition spawnFailed (res : SpawnResult) : bool :=
  match sr_error res with
  | Some _ => true
  | None => match sr_status res with
            | Some n => negb (n =? 0)%Z
            | None => true
            end
  end.

Definition handleXdotoolInject (os : Os) (a : App) : App :=
  let prompt := trim (currentPrompt (state (world a))) in
  if negb (nonEmpty prompt) then
    showStatus (js "Nothing to inject " ++ [EN_DASH] ++ js " prompt is empty.") a
  else
    match XDO_WINDOW_ID os with
    | Some target =>
        if negb (nonEmpty target) then
          showStatus (js "Set XDO_WINDOW_ID to target window id (xdotool search...).") a
        else if negb (xdotoolFound os) then
          showStatus (js "xdotool not found in PATH.") a
        else
          let a := set_typed (typed a ++ [xdotoolTypeArgs target prompt]) a in
          if spawnFailed (xdotoolResult os) then
            showStatus (js "Inject failed: " ++ injectFailureDetail (xdotoolResult os)) a
          else showStatus (js "Injected prompt via xdotool.") a
    | None => showStatus (js "Set XDO_WINDOW_ID to target window id (xdotool search...).") a
    end.

(** ** The keypress handler *)

Record KeyEvent : Type := mkKeyEvent {
  key_raw : jsstring;
  key_name : jsstring;
  key_ctrl : bool
}.

Inductive KeyOutcome : Type :=
| Continues (a : App)
(** [process.exit(code)] *)
| Exits (code : Z) (a : App)
(** the exception leaves the handler; attachFatalHandlers then ends the
    process with code 1 *)
| Uncaught (e : Exn) (a : App).

Definition outcomeOf (c : AppCompletion) : KeyOutcome :=
  match c with
  | AppNormal a => Continues a
  | AppThrow e a => Uncaught e a
  end.

Definition shutdown (a : App) : KeyOutcome :=
  match liftWorld stopRecording a with
  | AppNormal a => Exits 0 a
  | AppThrow e a => Uncaught e a
  end.

Definition isKey (k : KeyEvent) (n : string) : bool := jsstring_eqb (key_name k) (js n).

(** [takenByHistory] is what [historyList.handleKeyPress(key)] answers when
    it is asked, [notifies] as in enterEdit. *)
Definition onKeypress (os : Os) (takenByHistory notifies : bool) (k : KeyEvent) (a : App)
    : KeyOutcome :=
  if jsstring_eqb (key_raw k) [3] then shutdown a
  else if historyOpen (state (world a)) && takenByHistory then Continues a
  else if isEditing (state (world a)) then
    if isKey k "escape" || (key_ctrl k && isKey k "q") then outcomeOf (liftWorld exitEdit a)
    else if key_ctrl k && isKey k "s" then
      let a := on_world (fun w => on_state (set_currentPrompt (plainText (ui w))) w) a in
      outcomeOf (appThen (saveAndRefresh os a) (liftWorld exitEdit))
    else Continues a
  else if isKey k "escape" then outcomeOf (liftWorld exitEdit a)
  else if isKey k "r" then outcomeOf (liftWorld toggleRecording a)
  else if isKey k "e" then
    if key_ctrl k then outcomeOf (liftWorld (enterEdit notifies) a) else Continues a
  else if isKey k "i" then Continues (handleXdotoolInject os a)
  else if isKey k "s" then outcomeOf (saveAndRefresh os a)
  else if isKey k "y" then Continues (handleCopy os a)
  else if isKey k "h" then Continues (toggleHistory a)
  else if isKey k "c" then outcomeOf (handleCodexLaunch os a)
  else if isKey k "q" then shutdown a
  else Continues a.

(** Everything the runtime can call back into. *)
Inductive Action : Type :=
| Keypress (os : Os) (takenByHistory notifies : bool) (k : KeyEvent)
| ContentChange (t : jsstring)
| ItemSelected (index : nat)
| Line (rec : nat) (parsed : option JsValue)
| Stderr (rec : nat) (data : jsstring)
| SpawnError (rec : nat) (message : jsstring)
| ChildExit (rec : nat) (code : option Z) (signal : option jsstring).

Definition act (x : Action) (a : App) : KeyOutcome :=
  match x with
  | Keypress os taken notifies k => onKeypress os taken notifies k a
  | ContentChange t => Continues (on_world (onContentChange t) a)
  | ItemSelected index =>
      match historyOptions a !! index with
      | Some opt => outcomeOf (liftWorld (onItemSelected opt (runsDb a)) a)
      | None => Continues a
      end
  | Line _ parsed => Continues (on_world (onLine parsed) a)
  | Stderr rec data => Continues (on_world (onStderrData rec data) a)
  | SpawnError _ message => Continues (on_world (onError message) a)
  | ChildExit rec code signal => Continues (on_world (onExit rec code signal) a)
  end.

(** The callbacks run one after the other until the process ends. *)
Fixpoint actAll (xs : list Action) (a : App) : KeyOutcome :=
  match xs with
  | [] => Continues a
  | x :: rest =>
      match act x a with
      | Continues a' => actAll rest a'
      | ended => ended
      end
  end.

(** startTui up to its first callback: the history is filled before the
    first refreshPromptView. *)
Definition initialApp (modelDir : jsstring) (e : Env) (d : Db) (t : RunsTable) : App :=
  refreshHistory None
    (mkApp (initialWorld modelDir e d) t [] None false [] None []).

(** ** The headless injector (cli/inject) *)

(** injectText: the command it spawns, if any. *)
Definition injectText (targetWindow : jsstring) (txt : jsstring) : option (list jsstring) :=
  let msg := trim (replaceWsRuns txt) in
  if negb (nonEmpty msg) then None
  else Some (js "xdotool" :: xdotoolTypeArgs targetWindow msg).

(** The injector's "line" handler, as far as spawning goes (what it prints
    is left out).  A [text] that is truthy and not a string makes
    [text.replace] throw inside the try. *)
Definition injectOnLine (targetWindow : jsstring) (parsed : option JsValue)
    : option (list jsstring) :=
  match parsed with
  | None => None
  | Some evt =>
      match getProp evt (js "type") with
      | Raise _ => None
      | Ret ty =>
          if strictEqStr ty (js "partial") then None
          else if strictEqStr ty (js "final") then
            match getProp evt (js "text") with
            | Ret (JStr t) => if nonEmpty t then injectText targetWindow t else None
            | _ => None
            end
          else None
      end
  end.

(** ** The STT helper's shutdown (scripts/stt-helper.cjs) *)

Record HelperOutput : Type := mkHelperOutput {
  emitted : list JsValue;            (* the objects passed to emit, in order *)
  stderrLines : list jsstring;       (* the lines written to stderr *)
  exitCode : Z
}.

(** shutdown, the SIGINT/SIGTERM handler.  [stopError] is the message of
    what [recorder.stop()] threw, if it threw; [finalResult] is what
    [recognizer.finalResult()] gives, as an object.  An exception of
    safeParseText leaves the handler. *)
Definition helperShutdown (stopError : option jsstring) (finalResult : JsValue)
    : Res HelperOutput :=
  let '(out, err) :=
    match stopError with
    | Some m =>
        let msg := js "recorder stop error: " ++ m in
        ([errorEvent msg], [msg])
    | None => ([], [])
    end in
  match safeParseText finalResult with
  | Raise e => Raise e
  | Ret (Some final) => Ret (mkHelperOutput (out ++ [finalEvent final]) err 0)
  | Ret None => Ret (mkHelperOutput out err 0)
  end.



(** ** Notions the further properties use *)

(** The callbacks that come from a subprocess. *)
Definition fromChild (x : Action) : bool :=
  match x with
  | Line _ _ | Stderr _ _ | SpawnError _ _ | ChildExit _ _ _ => true
  | _ => false
  end.

(** The app an outcome ends with. *)
Definition finalApp (o : KeyOutcome) : App :=
  match o with Continues a | Exits _ a | Uncaught _ a => a end.

(** The session's shape: recording excludes editing and has a handle; the
    handle names a spawned subprocess; and every subprocess other than the
    one the handle names has been sent a signal. *)
Definition sessionOk (w : World) : Prop :=
  (isRecording (state w) = true -> isEditing (state w) = false) /\
  (isRecording (state w) = true -> is_Some (recorder (state w))) /\
  (forall p, recorder (state w) = Some p -> (p < length (children w))%nat) /\
  (forall i r, children w !! i = Some r -> recorder (state w) <> Some i -> signals r <> []).

(** [w'] differs from [w] in nothing that concerns the session, except
    that mode flags may have been switched off. *)
Definition calmer (w w' : World) : Prop :=
  recorder (state w') = recorder (state w) /\
  (signals <$> children w') = (signals <$> children w) /\
  (isRecording (state w') = true -> isRecording (state w) = true) /\
  (isEditing (state w') = true -> isEditing (state w) = true).

(** The value a partial line would leave as the live partial is a string,
    null or undefined, and the clock reads something. *)
Definition wellTyped (x : Action) : Prop :=
  match x with
  | Line _ parsed =>
      match partialText parsed with
      | Some v => stringOrAbsent v = true
      | None => True
      end
  | Keypress os _ _ _ => nonEmpty (saveTime os) = true
  | _ => True
  end.



(** [w'] has the store of [w], and its live partial and active prompt are
    those of [w] or have been cleared. *)
Definition keeps (w w' : World) : Prop :=
  (lastPartial (state w') = lastPartial (state w) \/ lastPartial (state w') = JUndefined) /\
  db w' = db w /\
  (activePromptId (state w') = activePromptId (state w) \/ activePromptId (state w') = None).


(** No whitespace but single spaces: every whitespace character is a
    space and is not followed by another one. *)
Fixpoint singleSpaced (s : jsstring) : bool :=
  match s with
  | [] => true
  | c :: r => (negb (isWhiteSpace c) || ((c =? SP) && negb (headWs r))) && singleSpaced r
  end.

(** The characters JSON.stringify writes as they are: not a control
    character, a double quote, a backslash or a surrogate. *)
Definition plainChar (c : N) : bool :=
  (32 <=? c) && negb (c =? QUOTE) && negb (c =? BACKSLASH)
  && negb (isLeadSurrogate c) && negb (isTrailSurrogate c).

(** ** Sample data *)

Definition sampleTime : jsstring := js "2025-01-02T00:00:00.000Z".

Definition laterTime : jsstring := js "2025-01-03T08:30:00.000Z".

(** A store with one prompt, and one with two. *)
Definition oneRowDb : Db := snd (savePrompt sampleTime (js "first prompt") emptyDb).

Definition twoRowDb : Db := snd (savePrompt laterTime (js "second prompt") oneRowDb).

Definition noRuns : RunsTable := mkRunsTable ∅ 0.

(** The app around a world, with nothing else in it. *)
Definition appOn (w : World) : App := mkApp w noRuns [] None false [] None [].

(** The subprocess the first R spawns. *)
Definition firstHelper : RecorderProcess :=
  mkRecorderProcess (buildRecorderArgs demoEnv (js "/models/vosk")) [] [].

(** Ctrl+E pressed while recording with the draft "draft one". *)
Definition editingWorld : World := worldOf (enterEdit false draftOneWorld).


(** The app as it starts on a store of two prompts. *)
Definition historyApp : App := initialApp (js "/models/vosk") demoEnv twoRowDb noRuns.

Definition firstOption : HistoryOption :=
  mkHistoryOption (mkPromptRecord 2 laterTime (js "second prompt")) None (js "second prompt").

Definition secondOption : HistoryOption :=
  mkHistoryOption (mkPromptRecord 1 sampleTime (js "first prompt")) None (js "first prompt").

Definition sampleOs : Os :=
  mkOs sampleTime laterTime 1735776000000 (js "/home/user/project") (fun p => p)
    true true None None (fun _ => false) false (mkSpawnResult None (Some 0%Z) None).





(** A line of type partial whose text is a number. *)
Definition numberPartial : list (jsstring * JsValue) :=
  [(js "type", JStr (js "partial")); (js "text", JNum (S754_finite false 5 0))].

(** * Properties *)

(** ** Trimming and joining *)

Lemma trimStart_fix s : headWs s = false -> trimStart s = s.
Proof. destruct s as [|c r]; simpl; [done|]. by intros ->. Qed.

Lemma headWs_trimStart s : headWs (trimStart s) = false.
Proof.
  induction s as [|c r IH]; simpl; [done|].
  destruct (isWhiteSpace c) eqn:E; [done|]. simpl. by rewrite E.
Qed.

Lemma trimStart_suffix s : exists ws, s = ws ++ trimStart s.
Proof.
  induction s as [|c r [ws IH]]; simpl.
  - by exists [].
  - destruct (isWhiteSpace c).
    + exists (c :: ws). simpl. by rewrite <- IH.
    + by exists [].
Qed.

Lemma headWs_app a b : a <> [] -> headWs (a ++ b) = headWs a.
Proof. by destruct a. Qed.

Lemma lastWs_app a b : b <> [] -> lastWs (a ++ b) = lastWs b.
Proof.
  intros Hb. unfold lastWs. rewrite rev_app_distr. apply headWs_app.
  intros E. apply Hb. apply (f_equal (@rev N)) in E. by rewrite rev_involutive in E.
Qed.

Lemma nonEmpty_true s : nonEmpty s = true <-> s <> [].
Proof. destruct s; simpl; split; congruence. Qed.

Lemma tight_inv s :
  tight s = true -> s <> [] /\ headWs s = false /\ lastWs s = false.
Proof.
  unfold tight. rewrite !andb_true_iff, !negb_true_iff, nonEmpty_true. tauto.
Qed.

Lemma tight_intro s :
  s <> [] -> headWs s = false -> lastWs s = false -> tight s = true.
Proof.
  intros H1 H2 H3. unfold tight. rewrite H2, H3.
  apply nonEmpty_true in H1. by rewrite H1.
Qed.

Lemma trim_tight s : tight s = true -> trim s = s.
Proof.
  intros (_ & Hh & Hl)%tight_inv. unfold trim, trimEnd.
  rewrite (trimStart_fix s Hh). unfold lastWs in Hl.
  rewrite (trimStart_fix _ Hl). apply rev_involutive.
Qed.

Lemma trim_empty_or_tight s : trim s = [] \/ tight (trim s) = true.
Proof.
  unfold trim, trimEnd.
  pose proof (headWs_trimStart s) as Hu.
  set (u := trimStart s) in *.
  pose proof (headWs_trimStart (rev u)) as Hv.
  destruct (trimStart_suffix (rev u)) as [ws Hws].
  set (v := trimStart (rev u)) in *.
  destruct v as [|c v'] eqn:Ev; [by left|right].
  assert (Hu' : u = rev (c :: v') ++ rev ws).
  { rewrite <- rev_app_distr, <- Hws. by rewrite rev_involutive. }
  assert (Hne : rev (c :: v') <> []).
  { intros E. apply (f_equal (@rev N)) in E. by rewrite rev_involutive in E. }
  apply tight_intro; [done| |].
  - rewrite <- (headWs_app _ (rev ws) Hne), <- Hu'. exact Hu.
  - unfold lastWs. rewrite rev_involutive. exact Hv.
Qed.

Lemma tight_glue a b :
  tight a = true -> tight b = true -> tight (a ++ [SP] ++ b) = true.
Proof.
  intros (Ha & Hah & _)%tight_inv (Hb & _ & Hbl)%tight_inv.
  apply tight_intro.
  - by destruct a.
  - by rewrite headWs_app.
  - rewrite app_assoc. by rewrite lastWs_app.
Qed.

Lemma join_snoc sep ps t :
  join sep (ps ++ [t]) =
  match ps with [] => t | _ => join sep ps ++ sep ++ t end.
Proof.
  induction ps as [|p ps IH]; [done|].
  destruct ps as [|q ps]; [done|].
  change (join sep ((p :: q :: ps) ++ [t])) with (p ++ sep ++ join sep ((q :: ps) ++ [t])).
  rewrite IH. change (join sep (p :: q :: ps)) with (p ++ sep ++ join sep (q :: ps)).
  by rewrite <- !app_assoc.
Qed.

Lemma tight_join ps :
  Forall (fun p => tight p = true) ps -> ps <> [] -> tight (join [SP] ps) = true.
Proof.
  induction 1 as [|p ps Hp Hps IH]; [done|]. intros _.
  destruct ps as [|q ps]; [done|].
  change (join [SP] (p :: q :: ps)) with (p ++ [SP] ++ join [SP] (q :: ps)).
  apply tight_glue; [done|]. by apply IH.
Qed.

Lemma pieces_tight fs : Forall (fun p => tight p = true) (pieces fs).
Proof.
  unfold pieces. induction fs as [|f fs IH]; simpl; [constructor|].
  destruct (trim_empty_or_tight f) as [E|E].
  - by rewrite E.
  - destruct (nonEmpty (trim f)); [by constructor|done].
Qed.

(** ** What the handlers leave alone *)

(** refreshPromptView writes widgets only, whether or not it throws. *)
Lemma refreshPromptView_frame w :
  state (worldOf (refreshPromptView w)) = state w /\
  children (worldOf (refreshPromptView w)) = children w /\
  db (worldOf (refreshPromptView w)) = db w /\
  env (worldOf (refreshPromptView w)) = env w.
Proof.
  unfold refreshPromptView.
  destruct (renderPromptPreview (state w)); simpl; [|done].
  by destruct (isEditing (state w)).
Qed.

Lemma renderPromptPreview_returns s :
  stringOrAbsent (lastPartial s) = true -> exists p, renderPromptPreview s = Ret p.
Proof.
  unfold renderPromptPreview.
  destruct (lastPartial s); simpl; try done; eauto.
  intros _. destruct (isRecording s && nonEmpty (trim s0)); eauto.
Qed.

Lemma refreshPromptView_returns w :
  stringOrAbsent (lastPartial (state w)) = true ->
  refreshPromptView w = Normal (worldOf (refreshPromptView w)).
Proof.
  intros [p Hp]%renderPromptPreview_returns.
  unfold refreshPromptView. by rewrite Hp.
Qed.

Lemma handle_partial t w :
  handleSttEvent (partialEvent t) w =
  refreshPromptView (on_state (set_lastPartial (JStr t)) w).
Proof. reflexivity. Qed.

Lemma handle_final t w :
  handleSttEvent (finalEvent t) w = appendFinalText (JStr t) w.
Proof. reflexivity. Qed.

(** appendFinalText on a string never throws; this is the state it leaves. *)
Lemma appendFinalText_string t w :
  appendFinalText (JStr t) w = Normal (worldOf (appendFinalText (JStr t) w)) /\
  state (worldOf (appendFinalText (JStr t) w)) =
    (if nonEmpty (trim t) then
       set_lastPartial JUndefined
         (set_currentPrompt
            (if nonEmpty (trim (currentPrompt (state w)))
             then trim (currentPrompt (state w)) ++ [SP] ++ trim t
             else trim t) (state w))
     else state w) /\
  children (worldOf (appendFinalText (JStr t) w)) = children w /\
  db (worldOf (appendFinalText (JStr t) w)) = db w.
Proof.
  unfold appendFinalText, callTrim.
  destruct (nonEmpty (trim t)); cbn [negb]; [|done].
  match goal with |- context [refreshPromptView ?x] => set (w1 := x) end.
  destruct (refreshPromptView_frame w1) as (Hs & Hc & Hd & _).
  rewrite Hs, Hc, Hd. split; [|done].
  by apply refreshPromptView_returns.
Qed.

(** ** What the helper emits *)



Lemma safeParseText_tight payload t :
  safeParseText payload = Ret (Some t) -> tight t = true.
Proof.
  unfold safeParseText. destruct payload as [| | | | | |fields]; try done.
  destruct (hasKey (js "text") fields); [|done].
  destruct (lookupField (js "text") fields) as [| |b|x|s|items|fs]; try done;
    cbn [truthy callTrim].
  - by destruct b.
  - by destruct x.
  - destruct (nonEmpty s); [|done].
    destruct (trim_empty_or_tight s) as [E|E]; rewrite ?E; cbn [nonEmpty]; [done|].
    destruct (nonEmpty (trim s)); [|done]. by intros [= <-].
Qed.



(** ** Final events build the draft *)

Lemma trim_join ps :
  Forall (fun p => tight p = true) ps -> trim (join [SP] ps) = join [SP] ps.
Proof.
  intros H. destruct ps as [|p ps]; [done|].
  apply trim_tight, tight_join; done.
Qed.

(** One final text appended to a draft that is a join of tight pieces. *)
Lemma append_piece ps t w :
  Forall (fun p => tight p = true) ps ->
  currentPrompt (state w) = join [SP] ps ->
  currentPrompt (state (onLine (Some (finalEvent t)) w)) = join [SP] (ps ++ pieces [t]) /\
  isRecording (state (onLine (Some (finalEvent t)) w)) = isRecording (state w).
Proof.
  intros Hps Hcur. unfold onLine. rewrite handle_final.
  destruct (appendFinalText_string t w) as (_ & -> & _).
  unfold pieces. cbn [map List.filter].
  destruct (nonEmpty (trim t)) eqn:Ht.
  - split; [|done]. cbn [set_lastPartial set_currentPrompt currentPrompt].
    rewrite Hcur, trim_join by done. rewrite join_snoc.
    destruct ps as [|p ps]; [done|].
    assert (Hj : tight (join [SP] (p :: ps)) = true) by (by apply tight_join).
    apply tight_inv in Hj as (Hj & _).
    apply nonEmpty_true in Hj. by rewrite Hj.
  - by rewrite app_nil_r.
Qed.

Lemma pieces_cons t fs : pieces (t :: fs) = pieces [t] ++ pieces fs.
Proof. unfold pieces. cbn [map List.filter]. by destruct (nonEmpty (trim t)). Qed.

Lemma finals_extend rec fs : forall w ps,
  Forall (fun p => tight p = true) ps ->
  currentPrompt (state w) = join [SP] ps ->
  exists w', run (finalLines rec fs) w = Normal w' /\
    currentPrompt (state w') = join [SP] (ps ++ pieces fs) /\
    isRecording (state w') = isRecording (state w).
Proof.
  induction fs as [|t fs IH]; intros w ps Hps Hcur.
  - exists w. by rewrite app_nil_r.
  - destruct (append_piece ps t w Hps Hcur) as (Hd & Hr).
    destruct (IH (onLine (Some (finalEvent t)) w) (ps ++ pieces [t])) as (w' & Hrun & Hd' & Hr');
      [|done|].
    { apply Forall_app. split; [done|]. apply pieces_tight. }
    exists w'. split; [exact Hrun|].
    rewrite pieces_cons, app_assoc. split; [done|]. by rewrite Hr'.
Qed.

(** C2. Starting from an empty draft, any sequence of final events leaves
    as the draft the texts' trimmed, non-empty pieces joined by single
    spaces; every piece begins and ends with a non-whitespace code unit, so
    no separator has whitespace next to it, and the draft has none at
    either end (trimming it changes nothing).  Recording stays on
    throughout. *)
Theorem finals_build_the_draft (rec : nat) (fs : list jsstring) (w : World) :
  currentPrompt (state w) = [] ->
  exists w',
    run (finalLines rec fs) w = Normal w' /\
    currentPrompt (state w') = join [SP] (pieces fs) /\
    Forall (fun p => tight p = true) (pieces fs) /\
    trim (currentPrompt (state w')) = currentPrompt (state w') /\
    isRecording (state w') = isRecording (state w).
Proof.
  intros Hcur.
  destruct (finals_extend rec fs w [] (List.Forall_nil _) Hcur) as (w' & Hrun & Hd & Hr).
  exists w'. cbn [app] in Hd. repeat split; try done.
  - apply pieces_tight.
  - rewrite Hd. apply trim_join, pieces_tight.
Qed.

Lemma finals_build_the_draft_witness :
  exists w',
    run (finalLines 0 [js " hello"; js "  "; js "big world  "]) recordingWorld = Normal w' /\
    currentPrompt (state w') = join [SP] (pieces [js " hello"; js "  "; js "big world  "]) /\
    Forall (fun p => tight p = true) (pieces [js " hello"; js "  "; js "big world  "]) /\
    trim (currentPrompt (state w')) = currentPrompt (state w') /\
    isRecording (state w') = isRecording (state recordingWorld).
Proof.
  apply (finals_build_the_draft 0 [js " hello"; js "  "; js "big world  "] recordingWorld).
  reflexivity.
Defined.

Example finals_example :
  currentPrompt (state (worldOf
    (run (finalLines 0 [js " hello"; js "  "; js "big world  "]) recordingWorld)))
  = js "hello big world".
Proof. vm_compute. reflexivity. Qed.

(** ** Partial events *)

Lemma partial_state p w :
  handleSttEvent (partialEvent p) w = Normal (onLine (Some (partialEvent p)) w) /\
  state (onLine (Some (partialEvent p)) w) = set_lastPartial (JStr p) (state w) /\
  children (onLine (Some (partialEvent p)) w) = children w /\
  db (onLine (Some (partialEvent p)) w) = db w.
Proof.
  unfold onLine. rewrite handle_partial.
  set (w1 := on_state (set_lastPartial (JStr p)) w).
  destruct (refreshPromptView_frame w1) as (Hs & Hc & Hd & _).
  rewrite Hs, Hc, Hd. split; [|done].
  by apply refreshPromptView_returns.
Qed.

(** The world refreshPromptView leaves when the preview can be rendered. *)
Lemma refreshPromptView_eq w p :
  renderPromptPreview (state w) = Ret p ->
  refreshPromptView w =
  Normal (mkWorld (state w)
    (mkWidgets (buildStatusLine (state w))
       (if isEditing (state w) then plainText (ui w) else p)
       (isEditing (state w)) (focused (ui w))
       (js "Current prompt (" ++
        (if isEditing (state w) then js "EDIT"
         else if isRecording (state w) then js "RECORD" else js "VIEW") ++ js ")"))
    (children w) (db w) (env w)).
Proof.
  intros Hp. unfold refreshPromptView. rewrite Hp.
  destruct w as [s u cs d e]. cbn [state ui].
  destruct (isEditing s) eqn:He; unfold updatePromptTitle, on_ui;
    cbn [state ui children db env set_title set_statusText set_showCursor set_plainText
         statusText plainText showCursor focused title]; by rewrite He.
Qed.

(** A partial event overwrites whatever an earlier partial event left. *)
Lemma partial_replaces q p w :
  onLine (Some (partialEvent p)) (onLine (Some (partialEvent q)) w)
  = onLine (Some (partialEvent p)) w.
Proof.
  unfold onLine. rewrite !handle_partial.
  destruct (renderPromptPreview_returns (set_lastPartial (JStr q) (state w)) eq_refl)
    as [pq Hq].
  destruct (renderPromptPreview_returns (set_lastPartial (JStr p) (state w)) eq_refl)
    as [pp Hp].
  rewrite (refreshPromptView_eq (on_state (set_lastPartial (JStr q)) w) pq Hq).
  cbn [worldOf].
  assert (Hset : forall s, set_lastPartial (JStr p) (set_lastPartial (JStr q) s)
                           = set_lastPartial (JStr p) s) by done.
  rewrite (refreshPromptView_eq (on_state (set_lastPartial (JStr p)) w) pp Hp).
  erewrite refreshPromptView_eq;
    [|cbn [on_state state set_lastPartial]; rewrite Hset; exact Hp].
  cbn [worldOf on_state state ui children db env plainText focused].
  rewrite Hset. cbn [set_lastPartial isEditing].
  by destruct (isEditing (state w)).
Qed.

Lemma partials_last_wins rec qs p w :
  run (partialLines rec (qs ++ [p])) w = Normal (onLine (Some (partialEvent p)) w).
Proof.
  revert w. induction qs as [|q qs IH]; intros w; [done|].
  cbn [partialLines app map run deliver andThen] in *.
  by rewrite IH, partial_replaces.
Qed.

Lemma refreshPromptView_shows w p :
  isEditing (state w) = false ->
  renderPromptPreview (state w) = Ret p ->
  plainText (ui (worldOf (refreshPromptView w))) = p.
Proof.
  intros He Hp. unfold refreshPromptView. by rewrite Hp, He.
Qed.

Lemma preview_while_recording s p :
  isRecording s = true -> lastPartial s = JStr p ->
  renderPromptPreview s = Ret (previewOf (currentPrompt s) p).
Proof.
  intros Hr Hp. unfold renderPromptPreview, previewOf.
  rewrite Hp, Hr. cbn [optTrim andb]. by destruct (nonEmpty (trim p)).
Qed.

Lemma preview_without_partial s :
  lastPartial s = JUndefined -> renderPromptPreview s = Ret (trim (currentPrompt s)).
Proof. intros Hp. unfold renderPromptPreview. by rewrite Hp. Qed.

(** C3. While recording, after any run of partial events only the last one
    is live: the world is the one that partial alone would have produced,
    [lastPartial] holds its text, the draft is untouched and the editor
    shows the draft followed by that one partial.  A final event (its text
    not blank) then clears [lastPartial], and the editor shows the draft
    alone. *)
Theorem one_live_partial (rec : nat) (qs : list jsstring) (p t : jsstring) (w : World) :
  isRecording (state w) = true ->
  isEditing (state w) = false ->
  nonEmpty (trim t) = true ->
  exists w1 w2,
    run (partialLines rec (qs ++ [p])) w = Normal w1 /\
    w1 = onLine (Some (partialEvent p)) w /\
    lastPartial (state w1) = JStr p /\
    currentPrompt (state w1) = currentPrompt (state w) /\
    plainText (ui w1) = previewOf (currentPrompt (state w)) p /\
    deliver (StdoutLine rec (Some (finalEvent t))) w1 = Normal w2 /\
    lastPartial (state w2) = JUndefined /\
    plainText (ui w2) = trim (currentPrompt (state w2)).
Proof.
  intros Hr He Ht.
  exists (onLine (Some (partialEvent p)) w).
  exists (onLine (Some (finalEvent t)) (onLine (Some (partialEvent p)) w)).
  destruct (partial_state p w) as (_ & Hs & _).
  split; [apply partials_last_wins|]. split; [done|].
  rewrite Hs. split; [done|]. split; [done|]. split.
  - unfold onLine. rewrite handle_partial.
    apply refreshPromptView_shows; [done|].
    exact (preview_while_recording (set_lastPartial (JStr p) (state w)) p Hr eq_refl).
  - split; [done|].
    set (w1 := onLine (Some (partialEvent p)) w) in *. clearbody w1.
    destruct (appendFinalText_string t w1) as (_ & Hs2 & _).
    rewrite Ht in Hs2.
    assert (Hlp : lastPartial (state (onLine (Some (finalEvent t)) w1)) = JUndefined).
    { unfold onLine. rewrite handle_final. by rewrite Hs2. }
    split; [done|].
    unfold onLine at 1. rewrite handle_final. unfold appendFinalText, callTrim.
    rewrite Ht. cbn [negb].
    match goal with |- context [refreshPromptView ?x] => set (w2 := x) end.
    assert (He2 : isEditing (state w2) = false).
    { subst w2. cbn [on_state state set_lastPartial set_currentPrompt isEditing].
      rewrite Hs. exact He. }
    rewrite (refreshPromptView_shows w2 _ He2 (preview_without_partial (state w2) eq_refl)).
    f_equal. unfold onLine. rewrite handle_final. rewrite Hs2. done.
Qed.

Lemma one_live_partial_witness :
  exists w1 w2,
    run (partialLines 0 ([js "he"; js "hell"] ++ [js "hello"])) recordingWorld = Normal w1 /\
    w1 = onLine (Some (partialEvent (js "hello"))) recordingWorld /\
    lastPartial (state w1) = JStr (js "hello") /\
    currentPrompt (state w1) = currentPrompt (state recordingWorld) /\
    plainText (ui w1) = previewOf (currentPrompt (state recordingWorld)) (js "hello") /\
    deliver (StdoutLine 0 (Some (finalEvent (js "hello world")))) w1 = Normal w2 /\
    lastPartial (state w2) = JUndefined /\
    plainText (ui w2) = trim (currentPrompt (state w2)).
Proof.
  apply (one_live_partial 0 [js "he"; js "hell"] (js "hello") (js "hello world") recordingWorld);
    reflexivity.
Defined.

(** The walk-through of the design document: start, a partial, a final,
    stop. *)
Example dictation_scenario :
  let w1 := worldOf (run [KeyR; StdoutLine 0 (Some (partialEvent (js "hello")))] idleWorld) in
  let w2 := onLine (Some (finalEvent (js "hello world"))) w1 in
  let w3 := worldOf (run [KeyR] w2) in
  plainText (ui w1) = js "hello " ++ [ELLIPSIS] /\
  currentPrompt (state w2) = js "hello world" /\
  lastPartial (state w2) = JUndefined /\
  plainText (ui w2) = js "hello world" /\
  modeOf (state w3) = Idle /\
  currentPrompt (state w3) = js "hello world" /\
  recorder (state w3) = None /\
  (signals <$> children w3) = [[js "SIGTERM"]].
Proof. vm_compute. repeat split. Qed.

(** ** Events that arrive once recording is over *)

(** C1, as stated, fails: a final event delivered after stop is appended to
    the draft. *)
Lemma late_final_is_appended :
  isRecording (state stoppedWorld) = false /\
  recorder (state stoppedWorld) = None /\
  currentPrompt (state stoppedWorld) = js "hello" /\
  currentPrompt (state (onLine (Some (finalEvent (js "world"))) stoppedWorld))
    = js "hello world" /\
  currentPrompt (state (onLine (Some (finalEvent (js "world"))) stoppedWorld))
    <> currentPrompt (state stoppedWorld).
Proof. vm_compute. repeat split. discriminate. Qed.

(** C1, amended.  Once recording is off, a partial event leaves the draft
    as it is and the preview shows the trimmed draft alone; a final event
    is not discarded: its trimmed text, unless empty, is appended to the
    trimmed draft after one space, exactly as during recording. *)
Theorem late_events (t : jsstring) (w : World) :
  isRecording (state w) = false ->
  currentPrompt (state (onLine (Some (partialEvent t)) w)) = currentPrompt (state w) /\
  renderPromptPreview (state (onLine (Some (partialEvent t)) w))
    = Ret (trim (currentPrompt (state w))) /\
  currentPrompt (state (onLine (Some (finalEvent t)) w)) =
    (if nonEmpty (trim t) then
       if nonEmpty (trim (currentPrompt (state w)))
       then trim (currentPrompt (state w)) ++ [SP] ++ trim t
       else trim t
     else currentPrompt (state w)).
Proof.
  intros Hr.
  destruct (partial_state t w) as (_ & Hs & _). rewrite Hs.
  split; [done|]. split.
  - unfold renderPromptPreview. cbn. by rewrite Hr.
  - unfold onLine. rewrite handle_final.
    destruct (appendFinalText_string t w) as (_ & -> & _).
    by destruct (nonEmpty (trim t)).
Qed.

Lemma late_events_witness :
  currentPrompt (state (onLine (Some (partialEvent (js " world"))) stoppedWorld))
    = currentPrompt (state stoppedWorld) /\
  renderPromptPreview (state (onLine (Some (partialEvent (js " world"))) stoppedWorld))
    = Ret (trim (currentPrompt (state stoppedWorld))) /\
  currentPrompt (state (onLine (Some (finalEvent (js " world"))) stoppedWorld)) =
    (if nonEmpty (trim (js " world")) then
       if nonEmpty (trim (currentPrompt (state stoppedWorld)))
       then trim (currentPrompt (state stoppedWorld)) ++ [SP] ++ trim (js " world")
       else trim (js " world")
     else currentPrompt (state stoppedWorld)).
Proof. apply (late_events (js " world") stoppedWorld). reflexivity. Defined.

(** ** Malformed lines *)

(** C4, as stated, fails: a partial line whose text is blank, or missing,
    is malformed and yet replaces the live partial. *)
Lemma blank_partial_replaces_live_partial :
  eventChannel (Some (partialEvent (js "  "))) = None /\
  lastPartial (state previewingWorld) = JStr (js "hello") /\
  lastPartial (state (onLine (Some (partialEvent (js "  "))) previewingWorld)) = JStr (js "  ") /\
  plainText (ui previewingWorld) = js "hello " ++ [ELLIPSIS] /\
  plainText (ui (onLine (Some (partialEvent (js "  "))) previewingWorld)) = [] /\
  eventChannel (Some (JObj [(js "type", JStr (js "partial"))])) = None /\
  lastPartial (state (onLine (Some (JObj [(js "type", JStr (js "partial"))])) previewingWorld))
    = JUndefined.
Proof. vm_compute. repeat split. Qed.

Lemma blank_preview v s :
  stringOrAbsent v = true ->
  match v with JStr t => nonEmpty (trim t) | _ => false end = false ->
  renderPromptPreview (set_lastPartial v s) = Ret (trim (currentPrompt s)).
Proof.
  intros Hv Hb. unfold renderPromptPreview.
  destruct v; try done. cbn. rewrite Hb. by rewrite andb_false_r.
Qed.

(** C4, amended.  A malformed line never throws out of the line handler and
    leaves the draft, the recording and editing flags, the session handle,
    the subprocesses and the store as they were.  Unless it is an object of
    type partial it leaves the whole state, live partial included,
    unchanged.  A partial line with a missing, non-string or blank text
    does overwrite the live partial, with that value; when the value is
    absent or a blank string the preview then shows the draft alone. *)
Theorem malformed_line (rec : nat) (parsed : option JsValue) (w : World) :
  eventChannel parsed = None ->
  deliver (StdoutLine rec parsed) w = Normal (onLine parsed w) /\
  state (onLine parsed w)
    = set_lastPartial (lastPartial (state (onLine parsed w))) (state w) /\
  children (onLine parsed w) = children w /\
  db (onLine parsed w) = db w /\
  match partialText parsed with
  | None => state (onLine parsed w) = state w
  | Some v =>
      lastPartial (state (onLine parsed w)) = v /\
      (stringOrAbsent v = true ->
       renderPromptPreview (state (onLine parsed w)) = Ret (trim (currentPrompt (state w))))
  end.
Proof.
  intros Hmal. split; [done|].
  assert (Hid : state w = set_lastPartial (lastPartial (state w)) (state w))
    by (by destruct (state w)).
  destruct parsed as [evt|]; [|done].
  destruct evt as [| |b|x|s|items|fields]; try done.
  cbn [onLine partialText]. unfold handleSttEvent. cbn [getProp].
  cbn [eventChannel] in Hmal.
  destruct (lookupField (js "type") fields) as [| |b|x|ty|items|fs]; try done.
  cbn [strictEqStr].
  destruct (jsstring_eqb ty (js "partial")) eqn:Ep.
  { (* partial *)
    set (v := lookupField (js "text") fields) in *.
    set (w1 := on_state (set_lastPartial v) w).
    destruct (refreshPromptView_frame w1) as (Hs & Hc & Hd & _).
    rewrite Hs, Hc, Hd. repeat split; try done.
    intros Hv. subst w1. cbn [on_state state].
    apply blank_preview; [done|].
    destruct v; try done. by destruct (nonEmpty (trim s)). }
  destruct (jsstring_eqb ty (js "final")) eqn:Ef.
  { (* final *)
    unfold appendFinalText.
    destruct (lookupField (js "text") fields) as [| |b|x|t|items|fs]; try done.
    cbn [callTrim]. by destruct (nonEmpty (trim t)). }
  destruct (jsstring_eqb ty (js "error")) eqn:Ee; done.
Qed.

Lemma malformed_line_witness :
  deliver (StdoutLine 0 (Some (partialEvent (js "  ")))) previewingWorld
    = Normal (onLine (Some (partialEvent (js "  "))) previewingWorld) /\
  state (onLine (Some (partialEvent (js "  "))) previewingWorld)
    = set_lastPartial (lastPartial (state (onLine (Some (partialEvent (js "  "))) previewingWorld)))
        (state previewingWorld) /\
  children (onLine (Some (partialEvent (js "  "))) previewingWorld) = children previewingWorld /\
  db (onLine (Some (partialEvent (js "  "))) previewingWorld) = db previewingWorld /\
  match partialText (Some (partialEvent (js "  "))) with
  | None => state (onLine (Some (partialEvent (js "  "))) previewingWorld) = state previewingWorld
  | Some v =>
      lastPartial (state (onLine (Some (partialEvent (js "  "))) previewingWorld)) = v /\
      (stringOrAbsent v = true ->
       renderPromptPreview (state (onLine (Some (partialEvent (js "  "))) previewingWorld))
         = Ret (trim (currentPrompt (state previewingWorld))))
  end.
Proof.
  apply (malformed_line 0 (Some (partialEvent (js "  "))) previewingWorld). reflexivity.
Defined.

(** ** Starting while a session is active *)

(** C5, as stated, fails: startRecorder called with a live session returns
    normally with a second subprocess spawned, the first one signalled.
    Key presses reach that call too: once the exit report of a stopped
    subprocess has switched a restarted recording off, R starts a third
    subprocess over the second, which is still running. *)
Lemma start_over_active_session_spawns :
  recorder (state recordingWorld) = Some 0%nat /\
  (signals <$> children recordingWorld) = [[]] /\
  recorder (state (startRecorder recordingWorld)) = Some 1%nat /\
  (signals <$> children (startRecorder recordingWorld)) = [[js "SIGTERM"]; []] /\
  length (children (startRecorder recordingWorld)) = 2%nat /\
  (signals <$> children (worldOf
     (run [KeyR; KeyR; KeyR; ProcExit 0 (Some 0%Z) None; KeyR] idleWorld)))
    = [[js "SIGTERM"]; [js "SIGTERM"]; []].
Proof. vm_compute. repeat split. Qed.

(** C5, amended.  startRecorder does not fail when a session is active: it
    stops that session itself (SIGTERM to its subprocess, the handle
    dropped), then spawns the new subprocess and keeps its handle as the
    only one; nothing else of the state changes and no other subprocess is
    touched. *)
Theorem start_replaces_session (rec : nat) (r : RecorderProcess) (w : World) :
  recorder (state w) = Some rec ->
  children w !! rec = Some r ->
  length (children (startRecorder w)) = S (length (children w)) /\
  children (startRecorder w) !! rec
    = Some (mkRecorderProcess (spawnArgs r) (signals r ++ [js "SIGTERM"]) (lastStderr r)) /\
  children (startRecorder w) !! length (children w)
    = Some (mkRecorderProcess (buildRecorderArgs (env w) (modelPath (state w))) [] []) /\
  recorder (state (startRecorder w)) = Some (length (children w)) /\
  state (startRecorder w) = set_recorder (Some (length (children w))) (state w) /\
  (forall i, i <> rec -> (i < length (children w))%nat ->
     children (startRecorder w) !! i = children w !! i).
Proof.
  intros Hrec Hr.
  assert (Hlt : (rec < length (children w))%nat) by (by eapply lookup_lt_Some).
  unfold startRecorder, stopRecorder. rewrite Hrec.
  cbn [on_children on_state children state env set_recorder modelPath recorder].
  rewrite !length_app, !length_alter. cbn [length].
  repeat split.
  - lia.
  - rewrite lookup_app_l by (by rewrite length_alter).
    rewrite list_lookup_alter_eq. by rewrite Hr.
  - rewrite lookup_app_r by (by rewrite length_alter).
    rewrite length_alter. by rewrite Nat.sub_diag.
  - intros i Hi Hlen. rewrite lookup_app_l by (by rewrite length_alter).
    by rewrite list_lookup_alter_ne.
Qed.

Lemma start_replaces_session_witness :
  length (children (startRecorder recordingWorld)) = S (length (children recordingWorld)) /\
  children (startRecorder recordingWorld) !! 0%nat
    = Some (mkRecorderProcess
              (buildRecorderArgs demoEnv (js "/models/vosk")) ([] ++ [js "SIGTERM"]) []) /\
  children (startRecorder recordingWorld) !! length (children recordingWorld)
    = Some (mkRecorderProcess
              (buildRecorderArgs (env recordingWorld) (modelPath (state recordingWorld))) [] []) /\
  recorder (state (startRecorder recordingWorld)) = Some (length (children recordingWorld)) /\
  state (startRecorder recordingWorld)
    = set_recorder (Some (length (children recordingWorld))) (state recordingWorld) /\
  (forall i, i <> 0%nat -> (i < length (children recordingWorld))%nat ->
     children (startRecorder recordingWorld) !! i = children recordingWorld !! i).
Proof.
  apply (start_replaces_session 0
           (mkRecorderProcess (buildRecorderArgs demoEnv (js "/models/vosk")) [] [])
           recordingWorld); reflexivity.
Defined.

(** ** Stopping *)

Lemma stopRecorder_state w :
  state (stopRecorder w) = set_recorder None (state w).
Proof.
  unfold stopRecorder. destruct (recorder (state w)) eqn:E; [done|].
  destruct w as [s u c d e]. cbn in *. destruct s. cbn in *. by subst.
Qed.

Lemma stopRecording_returns w :
  stopRecording w = Normal (worldOf (stopRecording w)).
Proof.
  unfold stopRecording. destruct (isRecording (state w)); cbn [negb]; [|done].
  apply refreshPromptView_returns. by rewrite stopRecorder_state.
Qed.

Lemma stopRecording_state w :
  state (worldOf (stopRecording w)) =
  if isRecording (state w)
  then set_recorder None (set_lastPartial JUndefined (set_isRecording false (state w)))
  else state w.
Proof.
  unfold stopRecording. destruct (isRecording (state w)); cbn [negb]; [|done].
  match goal with |- context [refreshPromptView ?x] => set (w1 := x) end.
  destruct (refreshPromptView_frame w1) as (-> & _).
  subst w1. by rewrite stopRecorder_state.
Qed.

(** C7. stopRecording never throws, and a second call straight after the
    first returns the world unchanged: no second signal, no second
    transition.  Called when not recording it changes nothing at all, and
    in every case the draft is what it was.  The same holds one layer down:
    stopRecorder twice is stopRecorder once, and with no handle it is the
    identity. *)
Theorem stop_idempotent (w : World) :
  exists w1,
    stopRecording w = Normal w1 /\
    stopRecording w1 = Normal w1 /\
    isRecording (state w1) = false /\
    currentPrompt (state w1) = currentPrompt (state w) /\
    (isRecording (state w) = false -> w1 = w) /\
    stopRecorder (stopRecorder w) = stopRecorder w /\
    (recorder (state w) = None -> stopRecorder w = w).
Proof.
  exists (worldOf (stopRecording w)).
  pose proof (stopRecording_state w) as Hs.
  assert (Hoff : isRecording (state (worldOf (stopRecording w))) = false).
  { rewrite Hs. by destruct (isRecording (state w)) eqn:E. }
  split; [apply stopRecording_returns|]. split.
  { unfold stopRecording at 1. by rewrite Hoff. }
  split; [done|]. split.
  { rewrite Hs. by destruct (isRecording (state w)). }
  split.
  { intros E. unfold stopRecording. by rewrite E. }
  split.
  - unfold stopRecorder at 1. by rewrite stopRecorder_state.
  - intros E. unfold stopRecorder. by rewrite E.
Qed.

Example stop_twice :
  run [KeyR; KeyR] idleWorld = Normal (worldOf (run [KeyR; KeyR] idleWorld)) /\
  stopRecording (worldOf (run [KeyR; KeyR] idleWorld))
    = Normal (worldOf (run [KeyR; KeyR] idleWorld)) /\
  (signals <$> children (worldOf (run [KeyR; KeyR] idleWorld))) = [[js "SIGTERM"]] /\
  stopRecording idleWorld = Normal idleWorld.
Proof. vm_compute. repeat split. Qed.

(** ** The subprocess exits *)

(** C8, as stated, fails: with stderr text at hand the diagnostic carries
    that text alone, not the exit code. *)
Lemma diagnostic_omits_exit_code :
  isRecording (state crashingWorld) = true /\
  (lastStderr <$> children crashingWorld) = [js "boom"] /\
  statusText (ui (onExit 0 (Some 1%Z) None crashingWorld))
    = StatusText (js "Recording stopped (boom).") /\
  includes (js "Recording stopped (boom).") (js "code") = false /\
  includes (js "Recording stopped (boom).") (numberToString 1) = false.
Proof. vm_compute. repeat split. Qed.

Lemma exit_frame rec code signal w :
  children (onExit rec code signal w) = children w /\
  db (onExit rec code signal w) = db w /\
  state (onExit rec code signal w) = set_isRecording false (state w).
Proof.
  unfold onExit. destruct (isRecording (state w)) eqn:E; [done|].
  repeat split. destruct (state w). cbn in *. by subst.
Qed.

(** C8, amended.  An exit of the subprocess while recording forces
    Recording to Idle and sets the status to the non-empty text
    [Recording stopped (<detail>).]; the detail is that subprocess's stderr
    text when it wrote any, otherwise the exit code, otherwise the signal
    (a fixed text when there is neither).  The draft is what it was. *)
Theorem abnormal_exit (rec : nat) (code : option Z) (signal : option jsstring) (w : World) :
  isRecording (state w) = true ->
  isEditing (state w) = false ->
  exists detail errText,
    errText = match children w !! rec with Some r => lastStderr r | None => [] end /\
    modeOf (state w) = Recording /\
    modeOf (state (onExit rec code signal w)) = Idle /\
    currentPrompt (state (onExit rec code signal w)) = currentPrompt (state w) /\
    statusText (ui (onExit rec code signal w))
      = StatusText (js "Recording stopped (" ++ detail ++ js ").") /\
    js "Recording stopped (" ++ detail ++ js ")." <> [] /\
    (errText <> [] -> detail = errText) /\
    (errText = [] -> forall c, code = Some c -> detail = js "code " ++ numberToString c) /\
    (errText = [] -> code = None ->
       forall sg, signal = Some sg -> sg <> [] -> detail = js "signal " ++ sg) /\
    (errText = [] -> code = None -> signal = None \/ signal = Some [] ->
       detail = js "stt helper exited").
Proof.
  intros Hr He.
  exists (exitDetail (match children w !! rec with Some r => lastStderr r | None => [] end)
            code signal).
  eexists. split; [reflexivity|].
  destruct (exit_frame rec code signal w) as (_ & _ & Hs).
  rewrite Hs. unfold modeOf. rewrite Hr.
  cbn [set_isRecording isRecording isEditing currentPrompt]. rewrite He.
  split; [done|]. split; [done|]. split; [done|]. split.
  { unfold onExit. by rewrite Hr. }
  split; [done|]. split.
  { intros Hne. unfold exitDetail. apply nonEmpty_true in Hne. by rewrite Hne. }
  split.
  { by intros -> c ->. }
  split.
  { intros -> -> sg -> Hsg. unfold exitDetail. cbn [nonEmpty].
    apply nonEmpty_true in Hsg. by rewrite Hsg. }
  by intros -> -> [-> | ->].
Qed.

Lemma abnormal_exit_witness :
  exists detail errText,
    errText = match children draftOneWorld !! 0%nat with Some r => lastStderr r | None => [] end /\
    modeOf (state draftOneWorld) = Recording /\
    modeOf (state (onExit 0 None (Some (js "SIGSEGV")) draftOneWorld)) = Idle /\
    currentPrompt (state (onExit 0 None (Some (js "SIGSEGV")) draftOneWorld))
      = currentPrompt (state draftOneWorld) /\
    statusText (ui (onExit 0 None (Some (js "SIGSEGV")) draftOneWorld))
      = StatusText (js "Recording stopped (" ++ detail ++ js ").") /\
    js "Recording stopped (" ++ detail ++ js ")." <> [] /\
    (errText <> [] -> detail = errText) /\
    (errText = [] -> forall c, @None Z = Some c -> detail = js "code " ++ numberToString c) /\
    (errText = [] -> @None Z = None ->
       forall sg, Some (js "SIGSEGV") = Some sg -> sg <> [] -> detail = js "signal " ++ sg) /\
    (errText = [] -> @None Z = None ->
       Some (js "SIGSEGV") = None \/ Some (js "SIGSEGV") = Some [] ->
       detail = js "stt helper exited").
Proof.
  apply (abnormal_exit 0 None (Some (js "SIGSEGV")) draftOneWorld); reflexivity.
Defined.

(** The design document's scenario: recording with draft "draft one", the
    subprocess is killed by a signal. *)
Example crash_scenario :
  currentPrompt (state draftOneWorld) = js "draft one" /\
  modeOf (state (onExit 0 None (Some (js "SIGSEGV")) draftOneWorld)) = Idle /\
  statusText (ui (onExit 0 None (Some (js "SIGSEGV")) draftOneWorld))
    = StatusText (js "Recording stopped (signal SIGSEGV).") /\
  currentPrompt (state (onExit 0 None (Some (js "SIGSEGV")) draftOneWorld)) = js "draft one".
Proof. vm_compute. repeat split. Qed.

(** An exit that finds recording off is silent: nothing changes. *)
Lemma exit_after_stop_is_silent rec code signal w :
  isRecording (state w) = false -> onExit rec code signal w = w.
Proof. intros E. unfold onExit. by rewrite E. Qed.

(** Within one session the forced transition happens at most once: a
    second exit report finds recording off. *)
Lemma exit_twice rec code signal code' signal' w :
  onExit rec code' signal' (onExit rec code signal w) = onExit rec code signal w.
Proof.
  apply exit_after_stop_is_silent.
  destruct (exit_frame rec code signal w) as (_ & _ & ->). by destruct (state w).
Qed.

(** C9 fails on the code.  After a stop alone the exit report changes
    nothing.  But start, stop, start again: the first subprocess
    was sent SIGTERM by the stop and the second session is recording.  When
    the first subprocess's exit is then reported, its handler finds
    [isRecording] true, forces it off and writes a diagnostic, although that
    termination was the expected outcome of the stop; the second subprocess
    has received no signal and keeps running with its handle still in
    [recorder]. *)
Theorem stale_exit_stops_new_session :
  onExit 0 (Some 0%Z) None stoppedWorld = stoppedWorld /\
  isRecording (state restartedWorld) = true /\
  recorder (state restartedWorld) = Some 1%nat /\
  (signals <$> children restartedWorld) = [[js "SIGTERM"]; []] /\
  isRecording (state (onExit 0 (Some 0%Z) None restartedWorld)) = false /\
  statusText (ui (onExit 0 (Some 0%Z) None restartedWorld))
    = StatusText (js "Recording stopped (code 0).") /\
  recorder (state (onExit 0 (Some 0%Z) None restartedWorld)) = Some 1%nat /\
  (signals <$> children (onExit 0 (Some 0%Z) None restartedWorld)) = [[js "SIGTERM"]; []].
Proof. vm_compute. repeat split. Qed.

(** ** Saving *)


(** A draft with text is written to the store. *)
Example save_scenario :
  let w := worldOf (run [KeyS (js "2025-01-01T00:00:00.000Z")] (worldOf (run [KeyR] draftOneWorld))) in
  prompts (db w) !! 1%Z = Some (mkPromptRow (js "2025-01-01T00:00:00.000Z") (js "draft one")) /\
  activePromptId (state w) = Some 1%Z /\
  statusText (ui w) = StatusText (js "Saved prompt #1 (2025-01-01T00:00:00.000Z).").
Proof. vm_compute. repeat split. Qed.

(** C10. When the draft trims to the empty string, handleSave only sets the
    status text: the store, the active prompt id, the creation timestamp
    and the draft are what they were, so no prompt record is created or
    overwritten. *)
Theorem empty_draft_is_not_saved (now : jsstring) (w : World) :
  trim (currentPrompt (state w)) = [] ->
  handleSave now w
    = Normal (on_ui (set_statusText
        (StatusText (js "Nothing to save " ++ [EN_DASH] ++ js " prompt is empty."))) w) /\
  db (worldOf (handleSave now w)) = db w /\
  prompts (db (worldOf (handleSave now w))) = prompts (db w) /\
  activePromptId (state (worldOf (handleSave now w))) = activePromptId (state w) /\
  createdAt (state (worldOf (handleSave now w))) = createdAt (state w) /\
  currentPrompt (state (worldOf (handleSave now w))) = currentPrompt (state w).
Proof.
  intros Hblank. unfold handleSave. by rewrite Hblank.
Qed.

Lemma empty_draft_is_not_saved_witness :
  handleSave (js "2025-01-02T00:00:00.000Z") blankedWorld
    = Normal (on_ui (set_statusText
        (StatusText (js "Nothing to save " ++ [EN_DASH] ++ js " prompt is empty."))) blankedWorld) /\
  db (worldOf (handleSave (js "2025-01-02T00:00:00.000Z") blankedWorld)) = db blankedWorld /\
  prompts (db (worldOf (handleSave (js "2025-01-02T00:00:00.000Z") blankedWorld)))
    = prompts (db blankedWorld) /\
  activePromptId (state (worldOf (handleSave (js "2025-01-02T00:00:00.000Z") blankedWorld)))
    = activePromptId (state blankedWorld) /\
  createdAt (state (worldOf (handleSave (js "2025-01-02T00:00:00.000Z") blankedWorld)))
    = createdAt (state blankedWorld) /\
  currentPrompt (state (worldOf (handleSave (js "2025-01-02T00:00:00.000Z") blankedWorld)))
    = currentPrompt (state blankedWorld).
Proof.
  apply (empty_draft_is_not_saved (js "2025-01-02T00:00:00.000Z") blankedWorld). reflexivity.
Defined.

(** ** A missing model directory *)

Lemma stopRecorder_frame w :
  length (children (stopRecorder w)) = length (children w) /\
  env (stopRecorder w) = env w /\
  db (stopRecorder w) = db w /\
  ui (stopRecorder w) = ui w.
Proof.
  unfold stopRecorder. destruct (recorder (state w)); [|done].
  cbn. by rewrite length_alter.
Qed.

(** startRecorder always spawns: one more subprocess, its handle kept. *)
Lemma startRecorder_spawns w :
  children (startRecorder w)
    = children (stopRecorder w)
      ++ [mkRecorderProcess (buildRecorderArgs (env w) (modelPath (state w))) [] []] /\
  state (startRecorder w) = set_recorder (Some (length (children w))) (state w) /\
  db (startRecorder w) = db w.
Proof.
  unfold startRecorder.
  destruct (stopRecorder_frame w) as (Hl & He & Hd & _).
  cbn [on_state on_children children state db env].
  rewrite Hl, He, Hd, stopRecorder_state.
  split; [done|]. split; [|done]. by destruct (state w).
Qed.

Lemma startRecording_runs w :
  exists w0,
    startRecording w = Normal (startRecorder w0) /\
    state w0 =
      set_lastRun None (set_activePromptId None (set_lastPartial JUndefined
        (set_currentPrompt [] (set_isEditing false (set_isRecording true (state w)))))) /\
    children w0 = children w /\ env w0 = env w /\ db w0 = db w.
Proof.
  unfold startRecording.
  match goal with |- context [refreshPromptView ?x] => set (w1 := x) end.
  exists (worldOf (refreshPromptView w1)).
  destruct (refreshPromptView_frame w1) as (Hs & Hc & Hd & He).
  rewrite Hs, Hc, Hd, He. split; [|done].
  by rewrite (refreshPromptView_returns w1).
Qed.

Lemma trim_drops_newline x : tight x = true -> trim (x ++ [10]) = x.
Proof.
  intros (Hne & Hh & Hl)%tight_inv. unfold trim, trimEnd.
  rewrite (trimStart_fix (x ++ [10])) by (by rewrite headWs_app).
  rewrite rev_app_distr. cbn [rev app trimStart].
  change (isWhiteSpace 10) with true. cbn iota.
  rewrite (trimStart_fix (rev x)) by exact Hl. apply rev_involutive.
Qed.

Lemma stringifyError_tight m : tight (stringifyError m) = true.
Proof.
  unfold stringifyError. apply tight_intro.
  - done.
  - done.
  - rewrite !app_assoc. by rewrite lastWs_app.
Qed.

(** The helper recovers the model path from the arguments the TUI passes. *)
Lemma helper_reads_model e mp :
  model (parseArgs (tail (buildRecorderArgs e mp)) (mkHelperArgs None None None)) = Some mp.
Proof.
  unfold buildRecorderArgs.
  destruct (STT_DEVICE e) as [d|]; [destruct (nonEmpty d)|]; reflexivity.
Qed.

Example stringifyError_example :
  stringifyError (js "no " ++ [QUOTE] ++ js "model" ++ [QUOTE; 10])
  = js "{" ++ [QUOTE] ++ js "type" ++ [QUOTE] ++ js ":" ++ [QUOTE] ++ js "error" ++ [QUOTE]
    ++ js "," ++ [QUOTE] ++ js "error" ++ [QUOTE] ++ js ":" ++ [QUOTE]
    ++ js "no " ++ [BACKSLASH; QUOTE] ++ js "model" ++ [BACKSLASH; QUOTE; BACKSLASH] ++ js "n"
    ++ [QUOTE] ++ js "}".
Proof. vm_compute. reflexivity. Qed.

Example helper_start_example :
  helperMain noModelOs (tail (buildRecorderArgs demoEnv (js "/models/vosk")))
  = ExitEarly (stringifyError (js "Model path not found: /models/vosk") ++ [10]) 1.
Proof. vm_compute. reflexivity. Qed.

(** C6, as stated, fails: with the model directory missing, start returns
    normally, a subprocess has been spawned and the machine is recording
    with its previous draft state reset. *)
Lemma missing_model_still_spawns :
  existsSync noModelOs (modelPath (state idleWorld)) = false /\
  startRecording idleWorld = Normal recordingWorld /\
  length (children idleWorld) = 0%nat /\
  length (children recordingWorld) = 1%nat /\
  isRecording (state idleWorld) = false /\
  isRecording (state recordingWorld) = true.
Proof. vm_compute. repeat split. Qed.

Lemma stderr_first_chunk rec data w r :
  children w !! rec = Some r ->
  lastStderr r = [] ->
  state (onStderrData rec data w) = state w /\
  children (onStderrData rec data w) !! rec
    = Some (mkRecorderProcess (spawnArgs r) (signals r) (trim data)) /\
  length (children (onStderrData rec data w)) = length (children w).
Proof.
  intros Hr Hempty. unfold onStderrData.
  cbn [on_ui on_children state children].
  rewrite list_lookup_alter_eq, Hr, length_alter. cbn [fmap option_fmap option_map].
  by rewrite Hempty.
Qed.

(** C6, amended.  start does not look at the model directory.  With a
    (non-empty) model path that does not exist it returns normally, having
    spawned the helper and switched to Recording.  The check is the
    helper's: run with the arguments it was spawned with, it writes one
    line to stderr, the JSON text of an error object saying
    [Model path not found: <path>], and exits with code 1.  When that
    output and that exit reach the TUI, recording is forced off and the
    status shows [Recording stopped (<that line>).]; no further subprocess
    is spawned. *)
Theorem missing_model_is_found_by_the_helper (os : HelperOs) (w : World) :
  nonEmpty (modelPath (state w)) = true ->
  existsSync os (modelPath (state w)) = false ->
  exists w1 r w2 line,
    line = stringifyError (js "Model path not found: " ++ modelPath (state w)) /\
    startRecording w = Normal w1 /\
    length (children w1) = S (length (children w)) /\
    recorder (state w1) = Some (length (children w)) /\
    children w1 !! length (children w) = Some r /\
    isRecording (state w1) = true /\
    helperMain os (tail (spawnArgs r)) = ExitEarly (line ++ [10]) 1 /\
    run [StderrData (length (children w)) (line ++ [10]);
         ProcExit (length (children w)) (Some 1%Z) None] w1 = Normal w2 /\
    isRecording (state w2) = false /\
    statusText (ui w2) = StatusText (js "Recording stopped (" ++ line ++ js ").") /\
    length (children w2) = S (length (children w)).
Proof.
  intros Hmp Hmissing.
  destruct (startRecording_runs w) as (w0 & Hstart & Hs0 & Hc0 & He0 & _).
  destruct (startRecorder_spawns w0) as (Hc1 & Hs1 & _).
  destruct (stopRecorder_frame w0) as (Hl0 & _).
  assert (Hmp0 : modelPath (state w0) = modelPath (state w)) by (by rewrite Hs0).
  set (r := mkRecorderProcess (buildRecorderArgs (env w0) (modelPath (state w0))) [] []) in *.
  set (line := stringifyError (js "Model path not found: " ++ modelPath (state w))).
  set (n := length (children w)).
  assert (Hr : children (startRecorder w0) !! n = Some r).
  { rewrite Hc1. rewrite lookup_app_r by (subst n; rewrite Hl0, Hc0; lia).
    subst n. by rewrite Hl0, Hc0, Nat.sub_diag. }
  assert (Hrec1 : isRecording (state (startRecorder w0)) = true) by (by rewrite Hs1, Hs0).
  destruct (stderr_first_chunk n (line ++ [10]) (startRecorder w0) r Hr eq_refl)
    as (Hs2 & Hr2 & Hl2).
  rewrite trim_drops_newline in Hr2 by apply stringifyError_tight.
  set (w2 := onStderrData n (line ++ [10]) (startRecorder w0)) in *.
  assert (Hline : nonEmpty line = true).
  { pose proof (stringifyError_tight (js "Model path not found: " ++ modelPath (state w))) as Ht.
    apply tight_inv in Ht as (Ht & _). by apply nonEmpty_true. }
  exists (startRecorder w0), r, (onExit n (Some 1%Z) None w2), line.
  split; [done|]. split; [done|]. split.
  { rewrite Hc1, length_app, Hl0, Hc0. cbn [length]. subst n. lia. }
  split; [by rewrite Hs1, Hc0|]. split; [done|]. split; [done|]. split.
  { unfold helperMain. subst r. cbn [spawnArgs].
    rewrite helper_reads_model, Hmp0. cbn [orElse]. rewrite Hmp, Hmissing. done. }
  split; [done|].
  destruct (exit_frame n (Some 1%Z) None w2) as (Hc3 & _ & Hs3).
  split; [by rewrite Hs3|]. split.
  - unfold onExit. rewrite Hs2, Hrec1.
    cbn [on_ui on_state ui children set_statusText statusText].
    rewrite Hr2. cbn [lastStderr]. unfold exitDetail. by rewrite Hline.
  - rewrite Hc3, Hl2, Hc1, length_app, Hl0, Hc0. cbn [length]. subst n. lia.
Qed.

Lemma missing_model_is_found_by_the_helper_witness :
  exists w1 r w2 line,
    line = stringifyError (js "Model path not found: " ++ modelPath (state idleWorld)) /\
    startRecording idleWorld = Normal w1 /\
    length (children w1) = S (length (children idleWorld)) /\
    recorder (state w1) = Some (length (children idleWorld)) /\
    children w1 !! length (children idleWorld) = Some r /\
    isRecording (state w1) = true /\
    helperMain noModelOs (tail (spawnArgs r)) = ExitEarly (line ++ [10]) 1 /\
    run [StderrData (length (children idleWorld)) (line ++ [10]);
         ProcExit (length (children idleWorld)) (Some 1%Z) None] w1 = Normal w2 /\
    isRecording (state w2) = false /\
    statusText (ui w2) = StatusText (js "Recording stopped (" ++ line ++ js ").") /\
    length (children w2) = S (length (children idleWorld)).
Proof.
  apply (missing_model_is_found_by_the_helper noModelOs idleWorld); reflexivity.
Defined.

(** * Further properties *)

(** ** The store *)

#[global] Instance idDesc_trans {A : Type} : Transitive (@idDesc A).
Proof. intros x y z. unfold idDesc. lia. Qed.

#[global] Instance idDesc_total {A : Type} : Total (@idDesc A).
Proof. intros x y. unfold idDesc. lia. Qed.

Lemma rowsByIdDesc_perm {A : Type} (m : gmap Z A) : rowsByIdDesc m ≡ₚ map_to_list m.
Proof. apply merge_sort_Permutation. Qed.

Lemma elem_of_rowsByIdDesc {A : Type} (m : gmap Z A) k v :
  (k, v) ∈ rowsByIdDesc m <-> m !! k = Some v.
Proof. rewrite rowsByIdDesc_perm. apply elem_of_map_to_list. Qed.

Lemma rowsByIdDesc_sorted {A : Type} (m : gmap Z A) :
  StronglySorted idDesc (rowsByIdDesc m).
Proof. apply StronglySorted_merge_sort; apply _. Qed.







Lemma getPrompt_Some id d p :
  getPrompt id d = Some p <->
  exists row, prompts d !! id = Some row /\ p = mkPromptRecord id (created_at row) (text row).
Proof.
  unfold getPrompt. destruct (prompts d !! id) as [row|]; split.
  - intros [= <-]. by exists row.
  - intros (row' & [= <-] & ->). done.
  - done.
  - by intros (row' & ? & _).
Qed.









Lemma head_rowsByIdDesc {A : Type} (m : gmap Z A) :
  match head (rowsByIdDesc m) with
  | Some (k, v) => m !! k = Some v /\ forall k' v', m !! k' = Some v' -> (k' <= k)%Z
  | None => m = ∅
  end.
Proof.
  pose proof (rowsByIdDesc_sorted m) as Hs.
  pose proof (elem_of_rowsByIdDesc m) as Hin.
  destruct (rowsByIdDesc m) as [|[k v] l] eqn:E; cbn.
  - apply map_to_list_empty_iff. apply Permutation_nil_r. rewrite <- rowsByIdDesc_perm. by rewrite E.
  - split; [apply Hin; left|].
    intros k' v' H'. apply Hin in H'. apply StronglySorted_cons in Hs as [Hall _].
    apply elem_of_cons in H' as [[= -> ->]|H']; [lia|].
    rewrite Forall_forall in Hall. apply (Hall _ H').
Qed.

Lemma head_sqlLimit_1 {A : Type} (l : list A) : head (sqlLimit 1 l) = head l.
Proof. by destruct l. Qed.

Lemma head_fmap {A B : Type} (f : A -> B) (l : list A) : head (f <$> l) = f <$> head l.
Proof. by destruct l. Qed.

(** X4. getLastPrompt is the stored record with the largest id, and is
    absent exactly when the table is empty. *)
Theorem getLastPrompt_is_newest (d : Db) :
  match getLastPrompt d with
  | Some p =>
      getPrompt (pr_id p) d = Some p /\
      forall id q, getPrompt id d = Some q -> (id <= pr_id p)%Z
  | None => prompts d = ∅
  end.
Proof.
  unfold getLastPrompt. rewrite head_fmap, head_sqlLimit_1.
  pose proof (head_rowsByIdDesc (prompts d)) as H.
  destruct (head (rowsByIdDesc (prompts d))) as [[k v]|]; cbn; [|done].
  destruct H as [Hk Hmax]. split.
  - unfold getPrompt. cbn. by rewrite Hk.
  - intros id q (row & Hrow & _)%getPrompt_Some. by apply (Hmax id row).
Qed.



(** ** Saving, continued *)

Lemma appendFinalText_frame txt w :
  children (worldOf (appendFinalText txt w)) = children w /\
  db (worldOf (appendFinalText txt w)) = db w /\
  env (worldOf (appendFinalText txt w)) = env w.
Proof.
  unfold appendFinalText. destruct (callTrim txt) as [t|]; [|done].
  destruct (nonEmpty t); cbn [negb]; [|done].
  match goal with |- context [refreshPromptView ?x] => set (w1 := x) end.
  destruct (refreshPromptView_frame w1) as (_ & -> & -> & ->). done.
Qed.

(** A line from the subprocess touches neither the subprocesses, nor the
    store, nor the environment. *)
Lemma onLine_frame parsed w :
  children (onLine parsed w) = children w /\
  db (onLine parsed w) = db w /\
  env (onLine parsed w) = env w.
Proof.
  destruct parsed as [evt|]; [|done]. cbn [onLine]. unfold handleSttEvent.
  destruct (getProp evt (js "type")) as [ty|]; [|done].
  destruct (strictEqStr ty (js "partial")).
  { destruct (getProp evt (js "text")) as [t|]; [|done].
    destruct (refreshPromptView_frame (on_state (set_lastPartial t) w)) as (_ & -> & -> & ->).
    done. }
  destruct (strictEqStr ty (js "final")).
  { destruct (getProp evt (js "text")) as [t|]; [|done]. apply appendFinalText_frame. }
  destruct (strictEqStr ty (js "error")); [|done].
  by destruct (getProp evt (js "error")).
Qed.









(** ** Editing *)

Lemma stopRecording_frame w :
  db (worldOf (stopRecording w)) = db w /\
  env (worldOf (stopRecording w)) = env w /\
  length (children (worldOf (stopRecording w))) = length (children w).
Proof.
  unfold stopRecording. destruct (isRecording (state w)); cbn [negb]; [|done].
  match goal with |- context [refreshPromptView ?x] => set (w1 := x) end.
  destruct (refreshPromptView_frame w1) as (_ & -> & -> & ->). subst w1.
  match goal with |- context [stopRecorder ?x] => destruct (stopRecorder_frame x) as (-> & -> & -> & _) end.
  done.
Qed.

(** What enterEdit leaves: the state stopRecording left, marked as editing
    (and with the live partial cleared if the editor reports the text it is
    given), and the editor holding the draft. *)
Lemma enterEdit_spec notifies w :
  exists w1,
    enterEdit notifies w = Normal w1 /\
    state w1 = (if notifies then set_lastPartial JUndefined else id)
                 (set_isEditing true (state (worldOf (stopRecording w)))) /\
    plainText (ui w1) = currentPrompt (state w) /\
    focused (ui w1) = true /\
    showCursor (ui w1) = true /\
    children w1 = children (worldOf (stopRecording w)) /\
    db w1 = db w /\ env w1 = env w.
Proof.
  unfold enterEdit. rewrite stopRecording_returns. cbn [andThen].
  destruct (stopRecording_frame w) as (Hd & He & _).
  pose proof (stopRecording_state w) as Hs.
  assert (Hcur : currentPrompt (state (worldOf (stopRecording w))) = currentPrompt (state w)).
  { rewrite Hs. by destruct (isRecording (state w)). }
  revert Hd He Hcur. generalize (worldOf (stopRecording w)). intros ws Hd He Hcur.
  destruct ws as [[cp ap ca lp ir ie ho mp lr rc] u cs d e].
  cbn [db env state currentPrompt] in Hd, He, Hcur. subst d e cp.
  eexists. split; [reflexivity|].
  destruct notifies; (split; [reflexivity|]); (split; [reflexivity|]);
    (split; [reflexivity|]); (split; [reflexivity|]); (split; [reflexivity|]);
    split; reflexivity.
Qed.

(** What exitEdit leaves when the live partial is a string or absent. *)
Lemma exitEdit_spec w :
  isEditing (state w) = true ->
  state (worldOf (exitEdit w))
    = set_currentPrompt (plainText (ui w)) (set_isEditing false (state w)) /\
  children (worldOf (exitEdit w)) = children w /\
  db (worldOf (exitEdit w)) = db w /\
  env (worldOf (exitEdit w)) = env w /\
  (stringOrAbsent (lastPartial (state w)) = true ->
     exitEdit w = Normal (worldOf (exitEdit w)) /\
     exists p, renderPromptPreview
                 (set_currentPrompt (plainText (ui w)) (set_isEditing false (state w))) = Ret p /\
               plainText (ui (worldOf (exitEdit w))) = p).
Proof.
  intros He. unfold exitEdit. rewrite He. cbn [negb].
  match goal with |- context [refreshPromptView ?x] => set (w1 := x) end.
  destruct (refreshPromptView_frame w1) as (-> & -> & -> & ->).
  assert (Hs1 : state w1
                = set_currentPrompt (plainText (ui w)) (set_isEditing false (state w))).
  { subst w1. destruct w as [s u cs d e]. done. }
  split; [done|]. split; [done|]. split; [done|]. split; [done|].
  intros Hlp.
  assert (Hlp1 : stringOrAbsent (lastPartial (state w1)) = true) by (by rewrite Hs1).
  split; [by apply refreshPromptView_returns|].
  destruct (renderPromptPreview_returns (state w1) Hlp1) as [p Hp].
  exists p. rewrite <- Hs1. split; [done|].
  apply refreshPromptView_shows; [by rewrite Hs1|done].
Qed.

(** X8. An edit is a round trip through the editor: enterEdit puts the
    draft into the editor and marks the state as editing (never
    recording); when the user then changes the text to [t], leaving edit
    mode makes [t], exactly as typed, the draft, shows it trimmed, and
    touches neither the store nor the number of subprocesses.  This holds
    whether or not the editor reports the text enterEdit gives it. *)
Theorem edit_round_trip (notifies : bool) (t : jsstring) (w : World) :
  exists w1 w3,
    enterEdit notifies w = Normal w1 /\
    isEditing (state w1) = true /\
    isRecording (state w1) = false /\
    plainText (ui w1) = currentPrompt (state w) /\
    currentPrompt (state w1) = currentPrompt (state w) /\
    exitEdit (onContentChange t w1) = Normal w3 /\
    currentPrompt (state w3) = t /\
    isEditing (state w3) = false /\
    isRecording (state w3) = false /\
    plainText (ui w3) = trim t /\
    db w3 = db w /\
    length (children w3) = length (children w).
Proof.
  destruct (enterEdit_spec notifies w) as (w1 & H1 & Hs1 & Hp1 & _ & _ & Hc1 & Hd1 & _).
  pose proof (stopRecording_state w) as Hs.
  destruct (stopRecording_frame w) as (_ & _ & Hl).
  assert (Hed : isEditing (state w1) = true) by (rewrite Hs1; by destruct notifies).
  assert (Hrec : isRecording (state w1) = false).
  { rewrite Hs1, Hs. by destruct notifies, (isRecording (state w)) eqn:E. }
  assert (Hcur : currentPrompt (state w1) = currentPrompt (state w)).
  { rewrite Hs1, Hs. by destruct notifies, (isRecording (state w)). }
  set (w2 := onContentChange t w1).
  assert (H2 : state w2 = set_lastPartial JUndefined (set_currentPrompt t (state w1)) /\
               plainText (ui w2) = t /\ children w2 = children w1 /\ db w2 = db w1).
  { subst w2. unfold onContentChange.
    cbn [on_ui on_state state ui set_plainText plainText]. rewrite Hed. done. }
  destruct H2 as (Hs2 & Hp2 & Hc2 & Hd2).
  assert (Hed2 : isEditing (state w2) = true) by (by rewrite Hs2).
  destruct (exitEdit_spec w2 Hed2) as (Hs3 & Hc3 & Hd3 & _ & Hret).
  destruct Hret as (Hnormal & p & Hp & Hshown); [by rewrite Hs2|].
  exists w1, (worldOf (exitEdit w2)).
  split; [done|]. split; [done|]. split; [done|]. split; [done|]. split; [done|].
  split; [done|]. rewrite Hs3, Hp2, Hs2.
  split; [done|]. split; [done|]. split; [done|]. split.
  { rewrite Hshown. rewrite Hp2, Hs2 in Hp. unfold renderPromptPreview in Hp.
    cbn in Hp. by injection Hp as <-. }
  split; [congruence|]. rewrite Hc3, Hc2, Hc1. done.
Qed.

(** ** What each callback does to the session *)

Ltac simpl_state :=
  cbn [state ui children db env on_state on_ui on_children set_db
       set_currentPrompt set_activePromptId set_createdAt set_lastPartial set_isRecording
       set_isEditing set_lastRun set_recorder set_historyOpen
       currentPrompt activePromptId createdAt lastPartial isRecording isEditing historyOpen
       modelPath lastRun recorder] in *.

Lemma state_eta s :
  set_lastPartial (lastPartial s) (set_currentPrompt (currentPrompt s) s) = s.
Proof. by destruct s. Qed.

Lemma calmer_refl w : calmer w w.
Proof. by repeat split. Qed.

Lemma calmer_trans w1 w2 w3 : calmer w1 w2 -> calmer w2 w3 -> calmer w1 w3.
Proof.
  intros (A1 & B1 & C1 & D1) (A2 & B2 & C2 & D2).
  split; [congruence|]. split; [congruence|]. split; auto.
Qed.

Lemma calmer_sessionOk w w' : calmer w w' -> sessionOk w -> sessionOk w'.
Proof.
  intros (Hrec & Hsig & Hr & He) (I1 & I2 & I3 & I4).
  assert (Hlen : length (children w') = length (children w)).
  { apply (f_equal length) in Hsig. by rewrite !length_fmap in Hsig. }
  split.
  { intros H. specialize (I1 (Hr H)).
    destruct (isEditing (state w')) eqn:E; [|done]. rewrite (He eq_refl) in I1. done. }
  split; [intros H; rewrite Hrec; auto|]. split.
  { intros p Hp. rewrite Hlen. apply I3. by rewrite <- Hrec. }
  intros i r Hi Hne.
  assert (Hs : (signals <$> children w) !! i = Some (signals r)).
  { rewrite <- Hsig, list_lookup_fmap, Hi. done. }
  rewrite list_lookup_fmap in Hs.
  destruct (children w !! i) as [r0|] eqn:E0; [|done].
  injection Hs as Hs. rewrite <- Hs. apply (I4 i r0 E0). by rewrite <- Hrec.
Qed.

(** A line changes the draft and the live partial at most. *)
Lemma onLine_state parsed w :
  exists cp lp,
    state (onLine parsed w) = set_lastPartial lp (set_currentPrompt cp (state w)) /\
    (lp = lastPartial (state w) \/ lp = JUndefined \/ partialText parsed = Some lp).
Proof.
  assert (Hsame : exists cp lp,
            state w = set_lastPartial lp (set_currentPrompt cp (state w)) /\
            (lp = lastPartial (state w) \/ lp = JUndefined \/ partialText parsed = Some lp)).
  { exists (currentPrompt (state w)), (lastPartial (state w)).
    split; [by rewrite state_eta|by left]. }
  destruct parsed as [evt|]; [|done]. cbn [onLine]. unfold handleSttEvent.
  destruct evt as [| |b|x|s|items|fields]; try done.
  cbn [getProp partialText] in *.
  destruct (strictEqStr (lookupField (js "type") fields) (js "partial")).
  { destruct (refreshPromptView_frame
                (on_state (set_lastPartial (lookupField (js "text") fields)) w)) as (-> & _).
    exists (currentPrompt (state w)), (lookupField (js "text") fields). split; [|auto].
    simpl_state. by destruct (state w). }
  destruct (strictEqStr (lookupField (js "type") fields) (js "final")).
  { unfold appendFinalText.
    destruct (callTrim (lookupField (js "text") fields)) as [t|]; [|done].
    destruct (nonEmpty t); cbn [negb]; [|done].
    match goal with |- context [refreshPromptView ?x] => set (w1 := x) end.
    destruct (refreshPromptView_frame w1) as (-> & _). subst w1.
    eexists _, JUndefined. split; [|auto]. simpl_state. reflexivity. }
  destruct (strictEqStr (lookupField (js "type") fields) (js "error")); done.
Qed.

Lemma onLine_calmer parsed w : calmer w (onLine parsed w).
Proof.
  destruct (onLine_state parsed w) as (cp & lp & Hs & _).
  destruct (onLine_frame parsed w) as (Hc & _).
  unfold calmer. rewrite Hs, Hc. by repeat split.
Qed.

Lemma onStderrData_calmer rec data w : calmer w (onStderrData rec data w).
Proof.
  unfold calmer, onStderrData. simpl_state. split; [done|]. split; [|done].
  apply list_eq. intros i. rewrite !list_lookup_fmap.
  destruct (decide (i = rec)) as [->|Hne].
  - rewrite list_lookup_alter_eq. by destruct (children w !! rec).
  - by rewrite list_lookup_alter_ne.
Qed.

Lemma onError_calmer message w : calmer w (onError message w).
Proof. by repeat split. Qed.

Lemma onExit_calmer rec code signal w : calmer w (onExit rec code signal w).
Proof.
  destruct (exit_frame rec code signal w) as (Hc & _ & Hs).
  unfold calmer. rewrite Hs, Hc. by repeat split.
Qed.

Lemma onContentChange_state t w :
  state (onContentChange t w)
    = (if isEditing (state w)
       then set_lastPartial JUndefined (set_currentPrompt t (state w))
       else state w) /\
  plainText (ui (onContentChange t w)) = t /\
  children (onContentChange t w) = children w /\
  db (onContentChange t w) = db w.
Proof.
  unfold onContentChange. cbn [on_ui state].
  destruct (isEditing (state w)); cbn [negb]; done.
Qed.

Lemma onContentChange_calmer t w : calmer w (onContentChange t w).
Proof.
  destruct (onContentChange_state t w) as (Hs & _ & Hc & _).
  unfold calmer. rewrite Hs, Hc.
  destruct (isEditing (state w)) eqn:E; simpl_state; repeat split; auto; congruence.
Qed.

Lemma exitEdit_calmer w : calmer w (worldOf (exitEdit w)).
Proof.
  destruct (isEditing (state w)) eqn:E.
  - destruct (exitEdit_spec w E) as (Hs & Hc & _).
    unfold calmer. rewrite Hs, Hc. by repeat split.
  - unfold exitEdit. rewrite E. apply calmer_refl.
Qed.

Lemma onItemSelected_spec opt t w :
  state (worldOf (onItemSelected opt t w))
    = set_isEditing false
        (set_lastRun (match opt_lastRun opt with
                      | Some r => Some r
                      | None => getLastRunForPrompt (pr_id (opt_prompt opt)) t
                      end)
           (set_createdAt (Some (pr_createdAt (opt_prompt opt)))
              (set_activePromptId (Some (pr_id (opt_prompt opt)))
                 (set_currentPrompt (pr_text (opt_prompt opt)) (state w))))) /\
  children (worldOf (onItemSelected opt t w)) = children w /\
  db (worldOf (onItemSelected opt t w)) = db w /\
  env (worldOf (onItemSelected opt t w)) = env w /\
  (stringOrAbsent (lastPartial (state w)) = true ->
     onItemSelected opt t w = Normal (worldOf (onItemSelected opt t w))).
Proof.
  unfold onItemSelected.
  match goal with |- context [refreshPromptView ?x] => set (w1 := x) end.
  destruct (refreshPromptView_frame w1) as (-> & -> & -> & ->).
  split; [done|]. split; [done|]. split; [done|]. split; [done|].
  intros H. by apply refreshPromptView_returns.
Qed.

Lemma onItemSelected_calmer opt t w : calmer w (worldOf (onItemSelected opt t w)).
Proof.
  destruct (onItemSelected_spec opt t w) as (Hs & Hc & _).
  unfold calmer. rewrite Hs, Hc. by repeat split.
Qed.

(** handleSave writes the active prompt id and the creation time at most. *)
Lemma handleSave_state now w :
  exists ap ca,
    state (worldOf (handleSave now w)) = set_createdAt ca (set_activePromptId ap (state w)) /\
    children (worldOf (handleSave now w)) = children w /\
    env (worldOf (handleSave now w)) = env w.
Proof.
  assert (Hsame : exists ap ca, state w = set_createdAt ca (set_activePromptId ap (state w))).
  { exists (activePromptId (state w)), (createdAt (state w)). by destruct (state w). }
  unfold handleSave.
  destruct (nonEmpty (trim (currentPrompt (state w)))); cbn [negb].
  2:{ destruct Hsame as (ap & ca & H). by exists ap, ca. }
  destruct (activePromptId (state w)) as [n|] eqn:Ea.
  - destruct (n =? 0)%Z.
    + eexists _, _. split; [reflexivity|done].
    + destruct (updatePrompt n (trim (currentPrompt (state w))) (db w)) as [[record|e] d].
      * eexists _, _. split; [reflexivity|done].
      * destruct Hsame as (ap & ca & H). by exists ap, ca.
  - eexists _, _. split; [reflexivity|done].
Qed.

Lemma handleSave_calmer now w : calmer w (worldOf (handleSave now w)).
Proof.
  destruct (handleSave_state now w) as (ap & ca & Hs & Hc & _).
  unfold calmer. rewrite Hs, Hc. by repeat split.
Qed.

Lemma stopRecorder_children w :
  children (stopRecorder w)
  = match recorder (state w) with
    | Some rec =>
        alter (fun r => mkRecorderProcess (spawnArgs r) (signals r ++ [js "SIGTERM"])
                          (lastStderr r)) rec (children w)
    | None => children w
    end.
Proof. unfold stopRecorder. by destruct (recorder (state w)). Qed.

(** After stopRecorder no subprocess is left without a signal. *)
Lemma stopRecorder_all_signalled w :
  (forall i r, children w !! i = Some r -> recorder (state w) <> Some i -> signals r <> []) ->
  forall i r, children (stopRecorder w) !! i = Some r -> signals r <> [].
Proof.
  intros I4 i r. rewrite stopRecorder_children.
  destruct (recorder (state w)) as [rec|]; [|intros H; by apply (I4 i r)].
  destruct (decide (i = rec)) as [->|Hne].
  - rewrite list_lookup_alter_eq. destruct (children w !! rec) as [r0|]; [|done].
    intros [= <-]. cbn. by destruct (signals r0).
  - rewrite list_lookup_alter_ne by done. intros H. apply (I4 i r H). congruence.
Qed.

Lemma stopRecording_children w :
  children (worldOf (stopRecording w))
  = if isRecording (state w) then children (stopRecorder w) else children w.
Proof.
  unfold stopRecording. destruct (isRecording (state w)); cbn [negb]; [|done].
  match goal with |- context [refreshPromptView ?x] => set (w1 := x) end.
  destruct (refreshPromptView_frame w1) as (_ & -> & _). subst w1.
  by rewrite !stopRecorder_children.
Qed.

Lemma stopRecording_sessionOk w : sessionOk w -> sessionOk (worldOf (stopRecording w)).
Proof.
  intros Hok. pose proof (stopRecording_state w) as Hs.
  pose proof (stopRecording_children w) as Hc.
  destruct (isRecording (state w)) eqn:E.
  - destruct Hok as (_ & _ & _ & I4).
    unfold sessionOk. rewrite Hs, Hc. simpl_state.
    split; [done|]. split; [done|]. split; [done|].
    intros i r Hi _. by apply (stopRecorder_all_signalled w I4 i r).
  - unfold stopRecording. by rewrite E.
Qed.

Lemma startRecording_sessionOk w : sessionOk w -> sessionOk (worldOf (startRecording w)).
Proof.
  intros (_ & _ & _ & I4).
  destruct (startRecording_runs w) as (w0 & Hstart & Hs0 & Hc0 & _).
  destruct (startRecorder_spawns w0) as (Hc1 & Hs1 & _).
  destruct (stopRecorder_frame w0) as (Hl0 & _).
  rewrite Hstart. cbn [worldOf]. unfold sessionOk. rewrite Hs1, Hc1, Hs0.
  rewrite length_app, Hl0. simpl_state. cbn [length].
  split; [done|]. split; [by eexists|]. split; [intros p [= <-]; lia|].
  intros i r Hi Hne.
  destruct (decide (i < length (children (stopRecorder w0)))%nat) as [Hlt|Hge].
  - rewrite lookup_app_l in Hi by done.
    apply (stopRecorder_all_signalled w0) in Hi; [done|].
    intros j rj Hj Hnej. apply (I4 j rj); [by rewrite <- Hc0|].
    rewrite Hs0 in Hnej. simpl_state. done.
  - exfalso. apply Hne. f_equal.
    apply lookup_lt_Some in Hi. rewrite length_app in Hi. cbn [length] in Hi. lia.
Qed.

Lemma toggleRecording_sessionOk w : sessionOk w -> sessionOk (worldOf (toggleRecording w)).
Proof.
  intros H. unfold toggleRecording. destruct (isRecording (state w)).
  - by apply stopRecording_sessionOk.
  - by apply startRecording_sessionOk.
Qed.

Lemma enterEdit_sessionOk notifies w :
  sessionOk w -> sessionOk (worldOf (enterEdit notifies w)).
Proof.
  intros H. apply stopRecording_sessionOk in H.
  destruct (enterEdit_spec notifies w) as (w1 & -> & Hs1 & _ & _ & _ & Hc1 & _).
  pose proof (stopRecording_state w) as Hs.
  assert (Hoff : isRecording (state (worldOf (stopRecording w))) = false).
  { rewrite Hs. by destruct (isRecording (state w)) eqn:E. }
  destruct H as (_ & I2 & I3 & I4).
  cbn [worldOf]. unfold sessionOk. rewrite Hs1, Hc1.
  destruct notifies; cbn [id]; simpl_state; rewrite Hoff; repeat split; try done; auto.
Qed.

(** X10. Entering edit mode while recording ends the session: the
    subprocess of the session is sent SIGTERM and its handle dropped,
    recording is off and editing on, the live partial is cleared, and the
    draft is kept and placed in the editor. *)
Theorem enterEdit_stops_recording (notifies : bool) (rec : nat) (r : RecorderProcess)
    (w : World) :
  isRecording (state w) = true ->
  recorder (state w) = Some rec ->
  children w !! rec = Some r ->
  exists w1,
    enterEdit notifies w = Normal w1 /\
    isRecording (state w1) = false /\
    isEditing (state w1) = true /\
    recorder (state w1) = None /\
    children w1 !! rec
      = Some (mkRecorderProcess (spawnArgs r) (signals r ++ [js "SIGTERM"]) (lastStderr r)) /\
    length (children w1) = length (children w) /\
    lastPartial (state w1) = JUndefined /\
    currentPrompt (state w1) = currentPrompt (state w) /\
    plainText (ui w1) = currentPrompt (state w).
Proof.
  intros Hr Hrec Hchild.
  destruct (enterEdit_spec notifies w) as (w1 & H1 & Hs1 & Hp1 & _ & _ & Hc1 & _).
  pose proof (stopRecording_state w) as Hs. rewrite Hr in Hs.
  pose proof (stopRecording_children w) as Hc. rewrite Hr, stopRecorder_children, Hrec in Hc.
  exists w1. split; [done|]. rewrite Hs1, Hc1, Hs, Hc.
  destruct notifies; cbn [id]; simpl_state;
    (split; [done|]); (split; [done|]); (split; [done|]);
    (split; [by rewrite list_lookup_alter_eq, Hchild|]);
    (split; [by rewrite length_alter|]); done.
Qed.

(** ** The session over whole runs of callbacks *)

Lemma refreshHistory_world sel a : world (refreshHistory sel a) = world a.
Proof.
  unfold refreshHistory. destruct (truthyId sel); [|done].
  destruct sel as [id|]; [|done].
  by destruct (findIndex id (listPrompts 100 (db (world a)))).
Qed.

Lemma showStatus_calmer s a : calmer (world a) (world (showStatus s a)).
Proof. by repeat split. Qed.

Lemma handleCopy_calmer os a : calmer (world a) (world (handleCopy os a)).
Proof.
  unfold handleCopy. destruct (nonEmpty (trim (currentPrompt (state (world a)))));
    cbn [negb]; [|apply showStatus_calmer].
  destruct (copyToClipboard os _) as [[failure|] [taken|]]; by repeat split.
Qed.

Lemma handleXdotoolInject_calmer os a : calmer (world a) (world (handleXdotoolInject os a)).
Proof.
  unfold handleXdotoolInject.
  destruct (nonEmpty (trim (currentPrompt (state (world a))))); cbn [negb];
    [|apply showStatus_calmer].
  destruct (XDO_WINDOW_ID os) as [target|]; [|apply showStatus_calmer].
  destruct (nonEmpty target); cbn [negb]; [|apply showStatus_calmer].
  destruct (xdotoolFound os); cbn [negb]; [|apply showStatus_calmer].
  destruct (spawnFailed (xdotoolResult os)); by repeat split.
Qed.

Lemma toggleHistory_calmer a : calmer (world a) (world (toggleHistory a)).
Proof.
  unfold toggleHistory.
  match goal with |- context [if ?c then _ else _] => destruct c end.
  - cbn [set_historyFocused world]. rewrite refreshHistory_world. by repeat split.
  - by repeat split.
Qed.

Lemma saveAndRefresh_world os a :
  world (appOf (saveAndRefresh os a)) = worldOf (handleSave (saveTime os) (world a)).
Proof.
  unfold saveAndRefresh. destruct (handleSave (saveTime os) (world a)) as [w|e w]; [|done].
  destruct (nonEmpty (trim (currentPrompt (state (world a))))); [|done].
  cbn [appOf]. by rewrite refreshHistory_world.
Qed.

Lemma saveAndRefresh_calmer os a : calmer (world a) (world (appOf (saveAndRefresh os a))).
Proof. rewrite saveAndRefresh_world. apply handleSave_calmer. Qed.

Lemma handleCodexLaunch_calmer os a :
  calmer (world a) (world (appOf (handleCodexLaunch os a))).
Proof.
  unfold handleCodexLaunch.
  destruct (nonEmpty (trim (currentPrompt (state (world a))))); cbn [negb];
    [|apply showStatus_calmer].
  assert (Hfirst : exists c,
    (if truthyId (activePromptId (state (world a))) then AppNormal a else saveAndRefresh os a) = c
    /\ calmer (world a) (world (appOf c))).
  { destruct (truthyId (activePromptId (state (world a)))); eexists; (split; [reflexivity|]).
    - apply calmer_refl.
    - apply saveAndRefresh_calmer. }
  destruct Hfirst as (c & -> & Hc). destruct c as [a1|e a1]; cbn [appThen appOf] in *; [|done].
  eapply calmer_trans; [exact Hc|]. clear Hc.
  match goal with |- context [launchCodex ?o ?p ?wd ?ea ?wn] =>
    destruct (launchCodex o p wd ea wn) as [[res|e] spawned] end;
    [|by repeat split].
  set (a2 := match spawned with
             | Some args => set_tmuxWindows (tmuxWindows a1 ++ [args]) a1
             | None => a1
             end).
  assert (Hw2 : world a2 = world a1) by (subst a2; by destruct spawned).
  assert (Hr2 : runsDb a2 = runsDb a1) by (subst a2; by destruct spawned).
  clearbody a2. rewrite Hw2, Hr2.
  destruct (activePromptId (state (world a1))) as [n|]; [destruct (n =? 0)%Z|].
  - cbn [appOf]. unfold showStatus, on_world, set_world, set_runsDb. cbn [world].
    rewrite Hw2. by repeat split.
  - destruct (logRun _ _ _ _ _ _ _) as [[run|e] t]; cbn [appOf];
      unfold showStatus, on_world, set_world, set_runsDb; cbn [world];
      rewrite Hw2; by repeat split.
  - cbn [appOf]. unfold showStatus, on_world, set_world, set_runsDb. cbn [world].
    rewrite Hw2. by repeat split.
Qed.

Lemma liftWorld_world f a : world (appOf (liftWorld f a)) = worldOf (f (world a)).
Proof. unfold liftWorld. by destruct (f (world a)). Qed.

Lemma finalApp_outcomeOf c : finalApp (outcomeOf c) = appOf c.
Proof. by destruct c. Qed.

Lemma finalApp_shutdown a : world (finalApp (shutdown a)) = worldOf (stopRecording (world a)).
Proof. unfold shutdown, liftWorld. by destruct (stopRecording (world a)). Qed.

Lemma onKeypress_sessionOk os taken notifies k a :
  sessionOk (world a) -> sessionOk (world (finalApp (onKeypress os taken notifies k a))).
Proof.
  intros Hok. unfold onKeypress.
  destruct (jsstring_eqb (key_raw k) [3]).
  { rewrite finalApp_shutdown. by apply stopRecording_sessionOk. }
  destruct (historyOpen (state (world a)) && taken); [done|].
  destruct (isEditing (state (world a))).
  { destruct (isKey k "escape" || key_ctrl k && isKey k "q").
    { rewrite finalApp_outcomeOf, liftWorld_world.
      eapply calmer_sessionOk; [apply exitEdit_calmer|done]. }
    destruct (key_ctrl k && isKey k "s"); [|done].
    rewrite finalApp_outcomeOf.
    match goal with |- context [saveAndRefresh os ?x] => set (a1 := x) end.
    assert (H1 : calmer (world a) (world a1)) by (by repeat split).
    pose proof (saveAndRefresh_calmer os a1) as H2.
    destruct (saveAndRefresh os a1) as [a2|e a2]; cbn [appThen appOf] in *.
    - rewrite liftWorld_world.
      eapply calmer_sessionOk; [|exact Hok].
      eapply calmer_trans; [exact H1|]. eapply calmer_trans; [exact H2|]. apply exitEdit_calmer.
    - eapply calmer_sessionOk; [|exact Hok]. eapply calmer_trans; [exact H1|exact H2]. }
  destruct (isKey k "escape").
  { rewrite finalApp_outcomeOf, liftWorld_world.
    eapply calmer_sessionOk; [apply exitEdit_calmer|done]. }
  destruct (isKey k "r").
  { rewrite finalApp_outcomeOf, liftWorld_world. by apply toggleRecording_sessionOk. }
  destruct (isKey k "e").
  { destruct (key_ctrl k); [|done].
    rewrite finalApp_outcomeOf, liftWorld_world. by apply enterEdit_sessionOk. }
  destruct (isKey k "i").
  { eapply calmer_sessionOk; [apply handleXdotoolInject_calmer|done]. }
  destruct (isKey k "s").
  { rewrite finalApp_outcomeOf. eapply calmer_sessionOk; [apply saveAndRefresh_calmer|done]. }
  destruct (isKey k "y").
  { eapply calmer_sessionOk; [apply handleCopy_calmer|done]. }
  destruct (isKey k "h").
  { eapply calmer_sessionOk; [apply toggleHistory_calmer|done]. }
  destruct (isKey k "c").
  { rewrite finalApp_outcomeOf. eapply calmer_sessionOk; [apply handleCodexLaunch_calmer|done]. }
  destruct (isKey k "q"); [|done].
  rewrite finalApp_shutdown. by apply stopRecording_sessionOk.
Qed.

Lemma act_sessionOk x a :
  sessionOk (world a) -> sessionOk (world (finalApp (act x a))).
Proof.
  intros Hok. destruct x as [os taken notifies k|t|index|rec parsed|rec data|rec message|rec code signal];
    cbn [act finalApp on_world set_world world].
  - by apply onKeypress_sessionOk.
  - eapply calmer_sessionOk; [apply onContentChange_calmer|done].
  - destruct (historyOptions a !! index) as [opt|]; [|done].
    rewrite finalApp_outcomeOf, liftWorld_world.
    eapply calmer_sessionOk; [apply onItemSelected_calmer|done].
  - eapply calmer_sessionOk; [apply onLine_calmer|done].
  - eapply calmer_sessionOk; [apply onStderrData_calmer|done].
  - eapply calmer_sessionOk; [apply onError_calmer|done].
  - eapply calmer_sessionOk; [apply onExit_calmer|done].
Qed.

Lemma actAll_sessionOk xs : forall a,
  sessionOk (world a) -> sessionOk (world (finalApp (actAll xs a))).
Proof.
  induction xs as [|x xs IH]; intros a Hok; [done|].
  cbn [actAll]. pose proof (act_sessionOk x a Hok) as Hx.
  destruct (act x a) as [a'|code a'|e a']; cbn [finalApp] in *; [by apply IH|done..].
Qed.

Lemma initialWorld_state modelDir e d :
  state (initialWorld modelDir e d) = initialState modelDir /\
  children (initialWorld modelDir e d) = [] /\
  db (initialWorld modelDir e d) = d.
Proof. done. Qed.

(** X11. Whatever callbacks arrive after start-up, in whatever order, and
    however the run ends: recording and editing are never on together, a
    recording always has its handle, the handle always names a spawned
    subprocess, and every subprocess except the one the handle names has
    been sent a signal, so that at most one subprocess is ever left
    unsignalled. *)
Theorem session_invariant (xs : list Action) (modelDir : jsstring) (e : Env) (d : Db)
    (t : RunsTable) :
  sessionOk (world (finalApp (actAll xs (initialApp modelDir e d t)))).
Proof.
  apply actAll_sessionOk. unfold initialApp. rewrite refreshHistory_world. cbn [world].
  destruct (initialWorld_state modelDir e d) as (Hs & Hc & _).
  unfold sessionOk. rewrite Hs, Hc. repeat split; done.
Qed.

(** ** Lines that arrive during an edit *)

Lemma refreshPromptView_editing w :
  isEditing (state w) = true ->
  plainText (ui (worldOf (refreshPromptView w))) = plainText (ui w).
Proof.
  intros He. unfold refreshPromptView.
  destruct (renderPromptPreview (state w)); [|done]. by rewrite He.
Qed.

Lemma appendFinalText_editing txt w :
  isEditing (state w) = true ->
  plainText (ui (worldOf (appendFinalText txt w))) = plainText (ui w).
Proof.
  intros He. unfold appendFinalText. destruct (callTrim txt) as [t|]; [|done].
  destruct (nonEmpty t); cbn [negb]; [|done].
  match goal with |- context [refreshPromptView ?x] => set (w1 := x) end.
  rewrite (refreshPromptView_editing w1); [done|]. subst w1. by simpl_state.
Qed.

Lemma onLine_editing parsed w :
  isEditing (state w) = true ->
  isEditing (state (onLine parsed w)) = true /\
  plainText (ui (onLine parsed w)) = plainText (ui w).
Proof.
  intros He. split.
  { destruct (onLine_state parsed w) as (cp & lp & -> & _). by simpl_state. }
  destruct parsed as [evt|]; [|done]. cbn [onLine]. unfold handleSttEvent.
  destruct (getProp evt (js "type")) as [ty|]; [|done].
  destruct (strictEqStr ty (js "partial")).
  { destruct (getProp evt (js "text")) as [t|]; [|done].
    rewrite (refreshPromptView_editing (on_state (set_lastPartial t) w)); [done|].
    by simpl_state. }
  destruct (strictEqStr ty (js "final")).
  { destruct (getProp evt (js "text")) as [t|]; [|done]. by apply appendFinalText_editing. }
  destruct (strictEqStr ty (js "error")); [|done].
  by destruct (getProp evt (js "error")).
Qed.

Lemma onExit_ui rec code signal w :
  plainText (ui (onExit rec code signal w)) = plainText (ui w).
Proof. unfold onExit. by destruct (isRecording (state w)). Qed.

Lemma fromChild_editing x a :
  fromChild x = true ->
  isEditing (state (world a)) = true ->
  exists a1,
    act x a = Continues a1 /\
    isEditing (state (world a1)) = true /\
    plainText (ui (world a1)) = plainText (ui (world a)).
Proof.
  intros Hx He.
  destruct x as [os taken notifies k|t|index|rec parsed|rec data|rec message|rec code signal];
    try discriminate Hx; cbn [act]; eexists; (split; [reflexivity|]);
    cbn [on_world set_world world].
  - by apply onLine_editing.
  - done.
  - done.
  - split; [|apply onExit_ui].
    destruct (exit_frame rec code signal (world a)) as (_ & _ & ->). by simpl_state.
Qed.

(** X9. What a subprocess reports while the editor is open never reaches
    the draft: after any run of lines, stderr chunks, spawn errors and exit
    reports the app is still editing, the editor holds the same text, and
    leaving the edit makes exactly that text the draft, so a final text
    that the helper flushes after Ctrl+E stopped it is lost. *)
Theorem lines_during_edit_are_dropped (xs : list Action) (a : App) :
  isEditing (state (world a)) = true ->
  Forall (fun x => fromChild x = true) xs ->
  exists a1,
    actAll xs a = Continues a1 /\
    isEditing (state (world a1)) = true /\
    plainText (ui (world a1)) = plainText (ui (world a)) /\
    currentPrompt (state (worldOf (exitEdit (world a1)))) = plainText (ui (world a)).
Proof.
  intros He Hxs. revert a He.
  induction Hxs as [|x xs Hx _ IH]; intros a He.
  - exists a. split; [done|]. split; [done|]. split; [done|].
    destruct (exitEdit_spec (world a) He) as (-> & _). by simpl_state.
  - destruct (fromChild_editing x a Hx He) as (a1 & Hact & He1 & Hp1).
    destruct (IH a1 He1) as (a2 & Hall & He2 & Hp2 & Hcur).
    exists a2. cbn [actAll]. rewrite Hact. rewrite <- Hp1. done.
Qed.

(** ** No handler throws *)


Lemma keeps_trans w1 w2 w3 : keeps w1 w2 -> keeps w2 w3 -> keeps w1 w3.
Proof.
  intros (A1 & B1 & C1) (A2 & B2 & C2). unfold keeps.
  split; [|split]; [|congruence|].
  - destruct A2 as [->| ->]; auto.
  - destruct C2 as [->| ->]; auto.
Qed.


Lemma keeps_state w w' :
  db w' = db w ->
  (exists cp ie ir lr rc ho,
     state w' = set_historyOpen ho (set_recorder rc (set_lastRun lr (set_isRecording ir
                  (set_isEditing ie (set_currentPrompt cp (state w))))))) ->
  keeps w w'.
Proof.
  intros Hd (cp & ie & ir & lr & rc & ho & Hs). unfold keeps. rewrite Hs, Hd.
  simpl_state. auto.
Qed.
































(** ** A live partial that is not a string *)

Lemma renderPromptPreview_throws s :
  stringOrAbsent (lastPartial s) = false -> renderPromptPreview s = Raise TypeError.
Proof. unfold renderPromptPreview. by destruct (lastPartial s). Qed.

Lemma refreshPromptView_throws w :
  stringOrAbsent (lastPartial (state w)) = false -> refreshPromptView w = Throw TypeError w.
Proof. intros H. unfold refreshPromptView. by rewrite renderPromptPreview_throws. Qed.

(** X13. What a badly typed line does: a line of type partial whose text
    is neither a string nor absent (a number, a boolean, an array, an object)
    is taken as the live partial, the exception its preview raises being
    swallowed by the line handler; the draft is unchanged.  Choosing an
    entry of the history list after it throws a TypeError out of the
    handler, with that entry already made the draft and the active
    prompt. *)
Theorem bad_partial_text_is_fatal (rec index : nat) (fields : list (jsstring * JsValue))
    (opt : HistoryOption) (a : App) :
  strictEqStr (lookupField (js "type") fields) (js "partial") = true ->
  stringOrAbsent (lookupField (js "text") fields) = false ->
  historyOptions a !! index = Some opt ->
  exists a1 a2,
    act (Line rec (Some (JObj fields))) a = Continues a1 /\
    lastPartial (state (world a1)) = lookupField (js "text") fields /\
    currentPrompt (state (world a1)) = currentPrompt (state (world a)) /\
    plainText (ui (world a1)) = plainText (ui (world a)) /\
    act (ItemSelected index) a1 = Uncaught TypeError a2 /\
    actAll [Line rec (Some (JObj fields)); ItemSelected index] a = Uncaught TypeError a2 /\
    currentPrompt (state (world a2)) = pr_text (opt_prompt opt) /\
    activePromptId (state (world a2)) = Some (pr_id (opt_prompt opt)).
Proof.
  intros Hty Htext Hopt.
  assert (Hline : onLine (Some (JObj fields)) (world a)
                  = on_state (set_lastPartial (lookupField (js "text") fields)) (world a)).
  { cbn [onLine]. unfold handleSttEvent. cbn [getProp]. rewrite Hty.
    rewrite refreshPromptView_throws; [done|]. by simpl_state. }
  set (a1 := on_world (onLine (Some (JObj fields))) a).
  assert (Hw1 : world a1 = on_state (set_lastPartial (lookupField (js "text") fields)) (world a)).
  { subst a1. cbn [on_world set_world world]. exact Hline. }
  assert (Hh1 : historyOptions a1 = historyOptions a) by reflexivity.
  assert (H1 : act (Line rec (Some (JObj fields))) a = Continues a1) by reflexivity.
  clearbody a1.
  set (w2 := on_ui (set_showCursor false) (on_ui (set_focused false)
      (on_ui (set_plainText (pr_text (opt_prompt opt)))
      (on_state (set_isEditing false)
      (on_state (set_lastRun
         (match opt_lastRun opt with
          | Some r => Some r
          | None => getLastRunForPrompt (pr_id (opt_prompt opt)) (runsDb a1)
          end))
      (on_state (set_createdAt (Some (pr_createdAt (opt_prompt opt))))
      (on_state (set_activePromptId (Some (pr_id (opt_prompt opt))))
      (on_state (set_currentPrompt (pr_text (opt_prompt opt))) (world a1))))))))).
  assert (H2 : act (ItemSelected index) a1 = Uncaught TypeError (set_world w2 a1)).
  { cbn [act]. rewrite Hh1, Hopt. unfold liftWorld, onItemSelected. fold w2.
    rewrite (refreshPromptView_throws w2); [done|].
    subst w2. rewrite Hw1. simpl_state. exact Htext. }
  exists a1, (set_world w2 a1).
  split; [exact H1|]. rewrite Hw1.
  split; [by simpl_state|]. split; [by simpl_state|]. split; [by simpl_state|].
  split; [exact H2|]. split; [cbn [actAll]; by rewrite H1, H2|].
  subst w2. cbn [set_world world]. simpl_state. done.
Qed.

(** ** What the headless injector types *)

Lemma replaceWsRunsFrom_spaced s : forall b,
  singleSpaced (replaceWsRunsFrom b s) = true /\
  (b = true -> headWs (replaceWsRunsFrom b s) = false).
Proof.
  induction s as [|c r IH]; intros b; [done|].
  cbn [replaceWsRunsFrom]. destruct (isWhiteSpace c) eqn:Ec.
  - destruct b.
    + apply IH.
    + destruct (IH true) as (Hs & Hh). split; [|done].
      cbn [singleSpaced]. rewrite Hs, (Hh eq_refl). done.
  - destruct (IH false) as (Hs & _). split.
    + cbn [singleSpaced]. by rewrite Ec, Hs.
    + intros _. cbn [headWs]. exact Ec.
Qed.

Lemma singleSpaced_app_r x y : singleSpaced (x ++ y) = true -> singleSpaced y = true.
Proof.
  induction x as [|c x IH]; [done|]. cbn [app singleSpaced].
  intros (_ & H)%andb_true_iff. by apply IH.
Qed.

Lemma singleSpaced_app_l x y : singleSpaced (x ++ y) = true -> singleSpaced x = true.
Proof.
  induction x as [|c x IH]; [done|]. cbn [app singleSpaced].
  intros (Hc & H)%andb_true_iff. rewrite (IH H), andb_true_r.
  destruct x as [|d x]; [|exact Hc].
  destruct (isWhiteSpace c); [|done]. cbn [negb orb] in *.
  apply andb_true_iff in Hc as (-> & _). done.
Qed.

Lemma trim_middle s : exists a b, s = a ++ trim s ++ b.
Proof.
  destruct (trimStart_suffix s) as [a Ha].
  destruct (trimStart_suffix (rev (trimStart s))) as [b Hb].
  exists a, (rev b). unfold trim, trimEnd.
  rewrite <- rev_app_distr, <- Hb, rev_involutive. exact Ha.
Qed.

Lemma singleSpaced_trim s : singleSpaced s = true -> singleSpaced (trim s) = true.
Proof.
  destruct (trim_middle s) as (a & b & Hs). intros H. rewrite Hs in H.
  by apply singleSpaced_app_r, singleSpaced_app_l in H.
Qed.

Lemma singleSpaced_fix s : forall b,
  singleSpaced s = true -> (b = true -> headWs s = false) -> replaceWsRunsFrom b s = s.
Proof.
  induction s as [|c r IH]; intros b; [done|].
  cbn [singleSpaced replaceWsRunsFrom headWs].
  intros (Hc & Hr)%andb_true_iff Hb.
  destruct (isWhiteSpace c) eqn:Ec.
  - destruct b; [by specialize (Hb eq_refl)|].
    cbn [negb orb] in Hc. apply andb_true_iff in Hc as (Hsp & Hh).
    apply N.eqb_eq in Hsp. apply negb_true_iff in Hh. subst c.
    f_equal. by apply IH.
  - f_equal. by apply IH.
Qed.

(** X14. The headless injector types for final lines only, and what it
    types is the line's text with every run of whitespace made one space
    and the ends trimmed: a message that is not empty, has no whitespace at
    its ends and none inside but single spaces, so that normalising it
    again changes nothing.  Partial lines, error lines, lines that do not
    parse and finals whose text is missing, not a string or blank type
    nothing. *)
Theorem injector_types_normalised_finals (target : jsstring) (parsed : option JsValue)
    (cmd : list jsstring) :
  injectOnLine target parsed = Some cmd ->
  exists fields t msg,
    parsed = Some (JObj fields) /\
    strictEqStr (lookupField (js "type") fields) (js "final") = true /\
    lookupField (js "text") fields = JStr t /\
    msg = trim (replaceWsRuns t) /\
    cmd = js "xdotool" :: xdotoolTypeArgs target msg /\
    tight msg = true /\
    singleSpaced msg = true /\
    replaceWsRuns msg = msg /\
    injectText target msg = Some cmd.
Proof.
  unfold injectOnLine. destruct parsed as [evt|]; [|done].
  destruct evt as [| |b|x|s|items|fields]; try done. cbn [getProp].
  destruct (strictEqStr (lookupField (js "type") fields) (js "partial")); [done|].
  destruct (strictEqStr (lookupField (js "type") fields) (js "final")) eqn:Ety; [|done].
  destruct (lookupField (js "text") fields) as [| |b|x|t|items|fs] eqn:Etext; try done.
  destruct (nonEmpty t); [|done].
  unfold injectText.
  destruct (nonEmpty (trim (replaceWsRuns t))) eqn:Emsg; cbn [negb]; [|done].
  intros [= <-].
  assert (Htight : tight (trim (replaceWsRuns t)) = true).
  { destruct (trim_empty_or_tight (replaceWsRuns t)) as [E|E]; [|done].
    by rewrite E in Emsg. }
  assert (Hsp : singleSpaced (trim (replaceWsRuns t)) = true).
  { apply singleSpaced_trim. apply (replaceWsRunsFrom_spaced t false). }
  assert (Hfix : replaceWsRuns (trim (replaceWsRuns t)) = trim (replaceWsRuns t)).
  { by apply singleSpaced_fix. }
  exists fields, t, (trim (replaceWsRuns t)).
  split; [done|]. split; [done|]. split; [done|]. split; [done|]. split; [done|].
  split; [done|]. split; [done|]. split; [done|].
  rewrite Hfix, (trim_tight _ Htight), Emsg. done.
Qed.

(** ** Saving and the history list *)






(** ** Launching Codex from the draft *)

Lemma launchCodex_runs os prompt name :
  nonEmpty (trim prompt) = true ->
  tmuxFound os = true ->
  launchCodex os prompt (Some (cwd os)) None (Some name)
  = (Ret (mkCodexLaunchResult name (js "codex " ++ quoteJSONString (trim prompt))),
     Some [js "new-window"; js "-n"; name; js "-c";
           if nonEmpty (cwd os) then resolvePath os (cwd os) else cwd os;
           js "codex " ++ quoteJSONString (trim prompt)]).
Proof.
  intros Hp Ht. unfold launchCodex, buildCodexCommand. rewrite Hp, Ht. cbn [negb].
  by rewrite app_nil_r.
Qed.





(** ** codex-last *)

Lemma getLastPrompt_head d :
  match getLastPrompt d with
  | Some p =>
      getPrompt (pr_id p) d = Some p /\
      forall id row, prompts d !! id = Some row -> (id <= pr_id p)%Z
  | None => prompts d = ∅
  end.
Proof.
  unfold getLastPrompt. rewrite head_fmap, head_sqlLimit_1.
  pose proof (head_rowsByIdDesc (prompts d)) as H.
  destruct (head (rowsByIdDesc (prompts d))) as [[k v]|]; cbn [fmap option_fmap option_map].
  - destruct H as [Hk Hmax]. split; [|exact Hmax].
    unfold getPrompt. cbn [toPromptRecord pr_id fst]. by rewrite Hk.
  - exact H.
Qed.

(** X18. codex-last launches the prompt with the largest id, and that one
    only: when the store has a prompt, the newest one has text and tmux is
    installed, it opens one tmux window, named from the clock, in the
    working directory, running [codex] on the JSON-quoted trimmed text,
    and does not exit by itself; otherwise it opens nothing and exits with
    code 1, which happens exactly when the store is empty, the newest
    prompt is blank or tmux is missing. *)
Theorem codex_last_launches_the_newest_prompt (os : Os) (d : Db) :
  (exists p,
     getPrompt (pr_id p) d = Some p /\
     (forall id row, prompts d !! id = Some row -> (id <= pr_id p)%Z) /\
     nonEmpty (trim (pr_text p)) = true /\
     tmuxFound os = true /\
     codexLastMain os d
       = (None, Some [js "new-window"; js "-n"; js "codex-" ++ numberToString36 (nowMs os);
                      js "-c";
                      if nonEmpty (cwd os) then resolvePath os (cwd os) else cwd os;
                      js "codex " ++ quoteJSONString (trim (pr_text p))]))
  \/
  (codexLastMain os d = (Some 1%Z, None) /\
   (prompts d = ∅ \/
    (exists p, getLastPrompt d = Some p /\ nonEmpty (trim (pr_text p)) = false) \/
    tmuxFound os = false)).
Proof.
  pose proof (getLastPrompt_head d) as H. unfold codexLastMain.
  destruct (getLastPrompt d) as [p|]; [|right; split; [reflexivity|by left]].
  destruct H as [Hget Hmax].
  unfold launchCodex, buildCodexCommand, defaultWindowName.
  destruct (nonEmpty (trim (pr_text p))) eqn:Et; cbn [negb].
  2:{ right. split; [reflexivity|]. right. left. by exists p. }
  destruct (tmuxFound os) eqn:Ef; cbn [negb].
  2:{ right. split; [reflexivity|]. by right; right. }
  left. exists p. rewrite app_nil_r. done.
Qed.

(** ** What the subprocess writes to stderr *)





(** ** The TUI and its helper *)

(** X20. The helper reads back what the TUI passes it.  From the argument
    list that startRecorder builds, the helper's parseArgs recovers the
    model path, the sample rate 16000 and the device of STT_DEVICE (none
    when that is unset or empty), whatever these strings are; and with a
    non-empty model path the helper goes on to record exactly when that
    path exists, the environment's VOSK_MODEL_PATH and the default
    location playing no part. *)
Theorem helper_reads_back_its_arguments (os : HelperOs) (e : Env) (mp : jsstring) :
  parseArgs (tail (buildRecorderArgs e mp)) (mkHelperArgs None None None)
    = mkHelperArgs (Some mp) (Some (js "16000"))
        (match STT_DEVICE e with
         | Some d => if nonEmpty d then Some d else None
         | None => None
         end) /\
  (nonEmpty mp = true ->
   helperMain os (tail (buildRecorderArgs e mp))
   = if existsSync os mp then Proceeds mp
     else ExitEarly (stringifyError (js "Model path not found: " ++ mp) ++ [10]) 1).
Proof.
  assert (Hargs : parseArgs (tail (buildRecorderArgs e mp)) (mkHelperArgs None None None)
    = mkHelperArgs (Some mp) (Some (js "16000"))
        (match STT_DEVICE e with
         | Some d => if nonEmpty d then Some d else None
         | None => None
         end)).
  { unfold buildRecorderArgs.
    destruct (STT_DEVICE e) as [d|]; [destruct (nonEmpty d)|]; reflexivity. }
  split; [exact Hargs|].
  intros Hmp. unfold helperMain. rewrite Hargs. cbn [model orElse]. rewrite Hmp.
  by destruct (existsSync os mp).
Qed.


Lemma wellTyped_partial rec t : wellTyped (Line rec (Some (partialEvent t))).
Proof. done. Qed.



Lemma refreshPromptView_status w :
  stringOrAbsent (lastPartial (state w)) = true ->
  statusText (ui (worldOf (refreshPromptView w))) = buildStatusLine (state w).
Proof.
  intros [p Hp]%renderPromptPreview_returns.
  by rewrite (refreshPromptView_eq w p Hp).
Qed.

(** X22. The words still in the recognizer when R stops a recording are
    not lost.  R sends SIGTERM to the session's subprocess and leaves
    Recording; the helper's shutdown then emits what its recognizer still
    holds as one last final, if that has any text, and exits with code 0;
    when that line and the exit report reach the TUI, the text is appended
    to the draft after a single space and shown, the app stays idle, and
    the exit is not reported as a fault. *)
Theorem stop_flushes_the_last_words (rec : nat) (r : RecorderProcess) (finalResult : JsValue)
    (out : HelperOutput) (w : World) :
  isRecording (state w) = true ->
  isEditing (state w) = false ->
  recorder (state w) = Some rec ->
  children w !! rec = Some r ->
  helperShutdown None finalResult = Ret out ->
  exists w1 w2,
    toggleRecording w = Normal w1 /\
    children w1 !! rec
      = Some (mkRecorderProcess (spawnArgs r) (signals r ++ [js "SIGTERM"]) (lastStderr r)) /\
    isRecording (state w1) = false /\
    currentPrompt (state w1) = currentPrompt (state w) /\
    run (((fun evt => StdoutLine rec (Some evt)) <$> emitted out)
         ++ [ProcExit rec (Some (exitCode out)) None]) w1 = Normal w2 /\
    isRecording (state w2) = false /\
    recorder (state w2) = None /\
    children w2 = children w1 /\
    statusText (ui w2) = buildStatusLine (state w2) /\
    currentPrompt (state w2)
      = match safeParseText finalResult with
        | Ret (Some t) =>
            if nonEmpty (trim (currentPrompt (state w)))
            then trim (currentPrompt (state w)) ++ [SP] ++ t
            else t
        | _ => currentPrompt (state w)
        end /\
    plainText (ui w2) = trim (currentPrompt (state w2)).
Proof.
  intros Hrec Hed Hh Hr Hout.
  exists (worldOf (stopRecording w)).
  pose proof (stopRecording_state w) as Hs1. rewrite Hrec in Hs1.
  pose proof (stopRecording_children w) as Hc1. rewrite Hrec, stopRecorder_children, Hh in Hc1.
  assert (Hui1 : statusText (ui (worldOf (stopRecording w)))
                 = buildStatusLine (state (worldOf (stopRecording w))) /\
                 plainText (ui (worldOf (stopRecording w)))
                 = trim (currentPrompt (state (worldOf (stopRecording w))))).
  { rewrite Hs1. unfold stopRecording. rewrite Hrec. cbn [negb].
    match goal with |- context [refreshPromptView ?x] => set (w0 := x) end.
    assert (Hs0 : state w0
                  = set_recorder None (set_lastPartial JUndefined
                      (set_isRecording false (state w)))).
    { subst w0. by rewrite stopRecorder_state. }
    clearbody w0. split.
    - rewrite refreshPromptView_status; rewrite Hs0; done.
    - rewrite (refreshPromptView_shows w0 (trim (currentPrompt (state w0)))).
      + rewrite Hs0. by simpl_state.
      + rewrite Hs0. by simpl_state.
      + apply preview_without_partial. rewrite Hs0. by simpl_state. }
  destruct Hui1 as (Hst1 & Hpt1).
  revert Hs1 Hc1 Hst1 Hpt1. rewrite <- (stopRecording_returns w).
  unfold toggleRecording. rewrite Hrec.
  generalize (worldOf (stopRecording w)). intros w1 Hs1 Hc1 Hst1 Hpt1.
  assert (Hoff : isRecording (state w1) = false) by (rewrite Hs1; by simpl_state).
  assert (Hcp : currentPrompt (state w1) = currentPrompt (state w))
    by (rewrite Hs1; by simpl_state).
  assert (Hrc : recorder (state w1) = None) by (rewrite Hs1; by simpl_state).
  assert (Hed1 : isEditing (state w1) = false) by (rewrite Hs1; by simpl_state).
  assert (Hch : children w1 !! rec
      = Some (mkRecorderProcess (spawnArgs r) (signals r ++ [js "SIGTERM"]) (lastStderr r))).
  { rewrite Hc1, list_lookup_alter_eq, Hr. done. }
  revert Hout. unfold helperShutdown.
  destruct (safeParseText finalResult) as [[t|]|] eqn:E; [| |done].
  - intros [= <-]. cbn [emitted exitCode app fmap list_fmap].
    pose proof (safeParseText_tight _ _ E) as Ht.
    assert (Hne : nonEmpty (trim t) = true).
    { rewrite (trim_tight t Ht). by apply tight_inv in Ht as (Hne%nonEmpty_true & _). }
    destruct (appendFinalText_string t w1) as (Hret & Hs2 & Hc2 & _).
    rewrite Hne, (trim_tight t Ht), Hcp in Hs2.
    set (cp2 := if nonEmpty (trim (currentPrompt (state w)))
                then trim (currentPrompt (state w)) ++ [SP] ++ t else t) in *.
    assert (Htight2 : tight cp2 = true).
    { subst cp2. destruct (trim_empty_or_tight (currentPrompt (state w))) as [Ee|Et].
      - by rewrite Ee.
      - pose proof Et as (Hn%nonEmpty_true & _)%tight_inv. rewrite Hn.
        by apply tight_glue. }
    assert (Hui2 : statusText (ui (worldOf (appendFinalText (JStr t) w1)))
                   = buildStatusLine (state (worldOf (appendFinalText (JStr t) w1))) /\
                   plainText (ui (worldOf (appendFinalText (JStr t) w1))) = trim cp2).
    { rewrite Hs2. unfold appendFinalText, callTrim. rewrite Hne. cbn [negb].
      rewrite (trim_tight t Ht), Hcp. fold cp2.
      match goal with |- context [refreshPromptView ?x] => set (w0 := x) end.
      assert (Hs0 : state w0 = set_lastPartial JUndefined (set_currentPrompt cp2 (state w1))).
      { subst w0. by simpl_state. }
      clearbody w0. split.
      - rewrite refreshPromptView_status; rewrite Hs0; done.
      - rewrite (refreshPromptView_shows w0 (trim (currentPrompt (state w0)))).
        + rewrite Hs0. by simpl_state.
        + rewrite Hs0. by simpl_state.
        + apply preview_without_partial. rewrite Hs0. by simpl_state. }
    destruct Hui2 as (Hst2 & Hpt2).
    exists (worldOf (appendFinalText (JStr t) w1)).
    split; [reflexivity|]. split; [exact Hch|]. split; [exact Hoff|]. split; [exact Hcp|].
    split.
    { cbn [run deliver andThen]. unfold onLine. rewrite handle_final.
      rewrite exit_after_stop_is_silent; [done|]. rewrite Hs2. by simpl_state. }
    rewrite Hs2. simpl_state.
    split; [exact Hoff|]. split; [exact Hrc|]. split; [exact Hc2|].
    split; [by rewrite Hst2, Hs2|]. split; [done|exact Hpt2].
  - intros [= <-]. cbn [emitted exitCode app fmap list_fmap].
    exists w1.
    split; [reflexivity|]. split; [exact Hch|]. split; [exact Hoff|]. split; [exact Hcp|].
    split.
    { cbn [run deliver andThen]. by rewrite exit_after_stop_is_silent. }
    split; [exact Hoff|]. split; [exact Hrc|]. split; [done|].
    split; [exact Hst1|]. split; [exact Hcp|exact Hpt1].
Qed.

(** ** Editing a stored prompt *)





(** ** Copying the draft *)

(** X24. Y hands the trimmed draft to a clipboard tool and changes nothing
    else but the status: the draft, the mode, the store, the subprocesses
    and the editor's text stay as they are.  The text is taken exactly when
    the draft is not blank and wl-copy or xclip works, whichever of the
    two is tried first; otherwise nothing is copied and the status says
    why. *)
Theorem copy_takes_the_trimmed_draft (os : Os) (a : App) :
  state (world (handleCopy os a)) = state (world a) /\
  db (world (handleCopy os a)) = db (world a) /\
  children (world (handleCopy os a)) = children (world a) /\
  plainText (ui (world (handleCopy os a))) = plainText (ui (world a)) /\
  if nonEmpty (trim (currentPrompt (state (world a)))) then
    if copyToolWorks os (js "wl-copy") || copyToolWorks os (js "xclip") then
      copied (handleCopy os a) = Some (trim (currentPrompt (state (world a)))) /\
      statusText (ui (world (handleCopy os a))) = StatusText (js "Prompt copied to clipboard.")
    else
      copied (handleCopy os a) = copied a /\
      statusText (ui (world (handleCopy os a)))
        = StatusText (js "Clipboard copy failed (wl-copy/xclip not found).")
  else
    copied (handleCopy os a) = copied a /\
    statusText (ui (world (handleCopy os a)))
      = StatusText (js "Nothing to copy " ++ [EN_DASH] ++ js " prompt is empty.").
Proof.
  unfold handleCopy.
  destruct (nonEmpty (trim (currentPrompt (state (world a))))); cbn [negb]; [|done].
  unfold copyToClipboard, clipboardCandidates.
  destruct (WAYLAND_DISPLAY os) as [wd|]; cbn [tryCandidates];
    destruct (copyToolWorks os (js "wl-copy")), (copyToolWorks os (js "xclip"));
    cbn [orb]; done.
Qed.

(** ** The command handed to tmux *)

Lemma quoteJSONChars_plain s : forallb plainChar s = true -> quoteJSONChars s = s.
Proof.
  induction s as [|c r IH]; [done|]. cbn [forallb].
  intros (Hc & Hr)%andb_true_iff. specialize (IH Hr).
  unfold plainChar in Hc.
  apply andb_true_iff in Hc as (Hc & Htrail).
  apply andb_true_iff in Hc as (Hc & Hlead).
  apply andb_true_iff in Hc as (Hc & Hbs).
  apply andb_true_iff in Hc as (H32 & Hq).
  apply negb_true_iff in Htrail, Hlead, Hbs, Hq.
  apply N.leb_le in H32.
  cbn [quoteJSONChars].
  assert ((c =? 8) = false) as -> by (apply N.eqb_neq; lia).
  assert ((c =? 9) = false) as -> by (apply N.eqb_neq; lia).
  assert ((c =? 10) = false) as -> by (apply N.eqb_neq; lia).
  assert ((c =? 12) = false) as -> by (apply N.eqb_neq; lia).
  assert ((c =? 13) = false) as -> by (apply N.eqb_neq; lia).
  assert ((c <? 32) = false) as -> by (apply N.ltb_ge; lia).
  rewrite Hq, Hbs, Hlead, Htrail, IH. done.
Qed.

(** X25. The command launchCodex gives tmux is [codex], a space, and the
    JSON string literal of the trimmed prompt.  For a prompt made of
    characters that JSON leaves alone (no control character, double quote,
    backslash or surrogate) that literal is the prompt itself between
    double quotes: every other character, the dollar sign and the backquote
    among them, reaches the command unchanged. *)
Theorem codex_command_embeds_plain_text_verbatim (os : Os) (prompt : jsstring)
    (name : jsstring) :
  nonEmpty (trim prompt) = true ->
  forallb plainChar (trim prompt) = true ->
  tmuxFound os = true ->
  launchCodex os prompt (Some (cwd os)) None (Some name)
  = (Ret (mkCodexLaunchResult name (js "codex " ++ [QUOTE] ++ trim prompt ++ [QUOTE])),
     Some [js "new-window"; js "-n"; name; js "-c";
           if nonEmpty (cwd os) then resolvePath os (cwd os) else cwd os;
           js "codex " ++ [QUOTE] ++ trim prompt ++ [QUOTE]]) /\
  plainChar 36 = true /\ plainChar 96 = true.
Proof.
  intros Hne Hplain Htmux.
  rewrite (launchCodex_runs os prompt name Hne Htmux).
  unfold quoteJSONString. rewrite (quoteJSONChars_plain _ Hplain). done.
Qed.

(** ** Concrete instances *)









Lemma historyApp_options : historyOptions historyApp = [firstOption; secondOption].
Proof. vm_compute. reflexivity. Qed.







Lemma lines_during_edit_are_dropped_witness :
  exists a1,
    actAll ([Line 0 (Some (finalEvent (js "late words"))); ChildExit 0 (Some 0%Z) None]) (appOn editingWorld) = Continues a1 /\
    isEditing (state (world a1)) = true /\
    plainText (ui (world a1)) = plainText (ui (world (appOn editingWorld))) /\
    currentPrompt (state (worldOf (exitEdit (world a1)))) = plainText (ui (world (appOn editingWorld))).
Proof.
  apply (lines_during_edit_are_dropped ([Line 0 (Some (finalEvent (js "late words"))); ChildExit 0 (Some 0%Z) None]) (appOn editingWorld));
    [vm_compute; reflexivity
    |repeat constructor].
Defined.

Lemma enterEdit_stops_recording_witness :
  exists w1,
    enterEdit false recordingWorld = Normal w1 /\
    isRecording (state w1) = false /\
    isEditing (state w1) = true /\
    recorder (state w1) = None /\
    children w1 !! 0%nat
      = Some (mkRecorderProcess (spawnArgs firstHelper) (signals firstHelper ++ [js "SIGTERM"]) (lastStderr firstHelper)) /\
    length (children w1) = length (children recordingWorld) /\
    lastPartial (state w1) = JUndefined /\
    currentPrompt (state w1) = currentPrompt (state recordingWorld) /\
    plainText (ui w1) = currentPrompt (state recordingWorld).
Proof.
  apply (enterEdit_stops_recording false 0%nat firstHelper recordingWorld);
    [vm_compute; reflexivity
    |vm_compute; reflexivity
    |vm_compute; reflexivity].
Defined.


Lemma bad_partial_text_is_fatal_witness :
  exists a1 a2,
    act (Line 0%nat (Some (JObj numberPartial))) historyApp = Continues a1 /\
    lastPartial (state (world a1)) = lookupField (js "text") numberPartial /\
    currentPrompt (state (world a1)) = currentPrompt (state (world historyApp)) /\
    plainText (ui (world a1)) = plainText (ui (world historyApp)) /\
    act (ItemSelected 0%nat) a1 = Uncaught TypeError a2 /\
    actAll [Line 0%nat (Some (JObj numberPartial)); ItemSelected 0%nat] historyApp = Uncaught TypeError a2 /\
    currentPrompt (state (world a2)) = pr_text (opt_prompt firstOption) /\
    activePromptId (state (world a2)) = Some (pr_id (opt_prompt firstOption)).
Proof.
  apply (bad_partial_text_is_fatal 0%nat 0%nat numberPartial firstOption historyApp);
    [vm_compute; reflexivity
    |reflexivity
    |rewrite historyApp_options; reflexivity].
Defined.

Lemma injector_types_normalised_finals_witness :
  exists fields t msg,
    (Some (finalEvent (js " hello   big" ++ [10] ++ js "world "))) = Some (JObj fields) /\
    strictEqStr (lookupField (js "type") fields) (js "final") = true /\
    lookupField (js "text") fields = JStr t /\
    msg = trim (replaceWsRuns t) /\
    (js "xdotool" :: xdotoolTypeArgs (js "4194311") (js "hello big world")) = js "xdotool" :: xdotoolTypeArgs (js "4194311") msg /\
    tight msg = true /\
    singleSpaced msg = true /\
    replaceWsRuns msg = msg /\
    injectText (js "4194311") msg = Some (js "xdotool" :: xdotoolTypeArgs (js "4194311") (js "hello big world")).
Proof.
  apply (injector_types_normalised_finals (js "4194311") (Some (finalEvent (js " hello   big" ++ [10] ++ js "world "))) (js "xdotool" :: xdotoolTypeArgs (js "4194311") (js "hello big world"))). vm_compute; reflexivity.
Defined.





Lemma stop_flushes_the_last_words_witness :
  exists w1 w2,
    toggleRecording draftOneWorld = Normal w1 /\
    children w1 !! 0%nat
      = Some (mkRecorderProcess (spawnArgs firstHelper) (signals firstHelper ++ [js "SIGTERM"]) (lastStderr firstHelper)) /\
    isRecording (state w1) = false /\
    currentPrompt (state w1) = currentPrompt (state draftOneWorld) /\
    run (((fun evt => StdoutLine 0%nat (Some evt)) <$> emitted (mkHelperOutput [finalEvent (js "last words")] [] 0))
         ++ [ProcExit 0%nat (Some (exitCode (mkHelperOutput [finalEvent (js "last words")] [] 0))) None]) w1 = Normal w2 /\
    isRecording (state w2) = false /\
    recorder (state w2) = None /\
    children w2 = children w1 /\
    statusText (ui w2) = buildStatusLine (state w2) /\
    currentPrompt (state w2)
      = match safeParseText (JObj [(js "text", JStr (js " last words "))]) with
        | Ret (Some t) =>
            if nonEmpty (trim (currentPrompt (state draftOneWorld)))
            then trim (currentPrompt (state draftOneWorld)) ++ [SP] ++ t
            else t
        | _ => currentPrompt (state draftOneWorld)
        end /\
    plainText (ui w2) = trim (currentPrompt (state w2)).
Proof.
  apply (stop_flushes_the_last_words 0%nat firstHelper (JObj [(js "text", JStr (js " last words "))]) (mkHelperOutput [finalEvent (js "last words")] [] 0) draftOneWorld);
    [vm_compute; reflexivity
    |vm_compute; reflexivity
    |vm_compute; reflexivity
    |vm_compute; reflexivity
    |vm_compute; reflexivity].
Defined.


Lemma codex_command_embeds_plain_text_verbatim_witness :
  launchCodex sampleOs (js " echo $HOME `date` ") (Some (cwd sampleOs)) None (Some (js "codex-1"))
  = (Ret (mkCodexLaunchResult (js "codex-1") (js "codex " ++ [QUOTE] ++ trim (js " echo $HOME `date` ") ++ [QUOTE])),
     Some [js "new-window"; js "-n"; (js "codex-1"); js "-c";
           if nonEmpty (cwd sampleOs) then resolvePath sampleOs (cwd sampleOs) else cwd sampleOs;
           js "codex " ++ [QUOTE] ++ trim (js " echo $HOME `date` ") ++ [QUOTE]]) /\
  plainChar 36 = true /\ plainChar 96 = true.
Proof.
  apply (codex_command_embeds_plain_text_verbatim sampleOs (js " echo $HOME `date` ") (js "codex-1"));
    [vm_compute; reflexivity
    |vm_compute; reflexivity
    |reflexivity].
Defined.

